(** * verify_signature.py: structural inspection of PDF signature fields

    A shallow embedding of [verify_pdf_signature] and of the script's
    command-line entry point.  The script is a straight line of dynamic
    look-ups and [print] calls wrapped in one [try/except Exception]; the
    embedding keeps that shape: Python values with their dynamic
    operations, a state-and-exception monad over a world made of the file
    system and standard output, and the PyPDF2 reader as an interface. *)

From Stdlib Require Import ZArith String Ascii List.
From Stdlib.Strings Require Import Byte.
From stdpp Require Import base option gmap strings list pretty relations.

Set Warnings "-register-all".
Set Default Proof Using "Type".
Open Scope string_scope.

(** ** Python exceptions and results *)

(** Classes below [Exception] that the script can meet.  [LibraryError]
    stands for any other [Exception] subclass raised inside PyPDF2
    ([PdfReadError], [ValueError], ...), tagged with its class name. *)
Inductive Exception : Type :=
| OSError
| KeyError
| TypeError
| AttributeError
| IndexError
| UnicodeEncodeError
| LibraryError (cls : string).

(** [SystemExit] derives from [BaseException] only, so that
    [except Exception] does not catch it. *)
Inductive BaseException : Type :=
| Exc (cls : Exception) (msg : string)
| SystemExit (code : Z).

Inductive Result (A : Type) : Type :=
| Ok (a : A)
| Raise (e : BaseException).
Arguments Ok {A} a.
Arguments Raise {A} e.

Definition raise_exc {A} (cls : Exception) (msg : string) : Result A :=
  Raise (Exc cls msg).

Definition is_Ok {A} (r : Result A) : bool :=
  match r with Ok _ => true | Raise _ => false end.

(** ** The world: file system and standard output *)

Inductive Node : Type :=
| RegularFile (readable : bool) (content : list byte)
| Directory.

Record World : Type := mkWorld {
  fs : gmap string Node;
  stdout : list string          (* one entry per [print] call *)
}.

(** Computations: read and write the world, return or raise. *)
Definition M (A : Type) : Type := World → Result A * World.

#[global] Instance M_ret : MRet M := λ A a w, (Ok a, w).
#[global] Instance M_bind : MBind M := λ A B k m w,
  match m w with
  | (Ok a, w') => k a w'
  | (Raise e, w') => (Raise e, w')
  end.

Definition lift {A} (r : Result A) : M A := λ w, (r, w).

Definition emit (lines : list string) (w : World) : World :=
  mkWorld (fs w) (stdout w ++ lines).

(** What standard output does with a text it is asked to write: the
    message of the [UnicodeEncodeError] it raises when its encoding lacks
    one of the characters, [None] when it can encode the text. *)
Record Console : Type := mkConsole {
  encode_error : string → option string
}.

(** A console whose encoding has every character (UTF-8). *)
Definition unicode_console : Console := {| encode_error := λ _, None |}.

(** [sys.exit(code)] *)
Definition sys_exit {A} (code : Z) : M A := lift (Raise (SystemExit code)).

(** [try: body  except Exception as e: handler(str(e))] *)
Definition try_except {A} (body : M A) (handler : string → M A) : M A :=
  λ w, match body w with
       | (Raise (Exc _ msg), w') => handler msg w'
       | (r, w') => (r, w')
       end.

(** [for x in xs: body(x)] over an already materialised sequence. *)
Fixpoint for_each {A} (xs : list A) (body : A → M unit) : M unit :=
  match xs with
  | [] => mret ()
  | x :: xs' => body x;; for_each xs' body
  end.

Definition quote (s : string) : string := "'" ++ s ++ "'".

(** [repr(s)] of a string: double quotes when the text has an apostrophe
    and no double quote, single quotes otherwise; backslash, the quote
    in use and control characters are escaped. *)
Definition double_quote : ascii := Ascii.ascii_of_nat 34.
Definition apostrophe : ascii := Ascii.ascii_of_nat 39.
Definition backslash : ascii := Ascii.ascii_of_nat 92.

Definition hex_digit (n : nat) : ascii :=
  Ascii.ascii_of_nat (if Nat.ltb n 10 then 48 + n else 87 + n).

Definition escape_char (q c : ascii) : string :=
  let n := Ascii.nat_of_ascii c in
  if Ascii.eqb c backslash then String backslash (String backslash EmptyString)
  else if Ascii.eqb c q then String backslash (String q EmptyString)
  else if Nat.eqb n 10 then String backslash "n"
  else if Nat.eqb n 13 then String backslash "r"
  else if Nat.eqb n 9 then String backslash "t"
  else if Nat.ltb n 32 || Nat.eqb n 127 then
    String backslash
      (String "x" (String (hex_digit (n / 16)) (String (hex_digit (n mod 16)) EmptyString)))
  else String c EmptyString.

Fixpoint escape (q : ascii) (s : string) : string :=
  match s with
  | EmptyString => EmptyString
  | String c s' => escape_char q c ++ escape q s'
  end.

Fixpoint has_char (c : ascii) (s : string) : bool :=
  match s with
  | EmptyString => false
  | String c' s' => Ascii.eqb c c' || has_char c s'
  end.

Definition py_repr (s : string) : string :=
  let q := if has_char apostrophe s && negb (has_char double_quote s)
           then double_quote else apostrophe in
  String q (escape q s ++ String q EmptyString).

(** [with open(path, 'rb') as f]: the handle is modelled by the bytes it
    gives access to; opening for reading and closing leave the file
    system as it is. *)
Definition py_open_rb (path : string) : M (list byte) := λ w,
  match fs w !! path with
  | None =>
      (raise_exc OSError ("[Errno 2] No such file or directory: " ++ py_repr path), w)
  | Some Directory =>
      (raise_exc OSError ("[Errno 21] Is a directory: " ++ py_repr path), w)
  | Some (RegularFile false _) =>
      (raise_exc OSError ("[Errno 13] Permission denied: " ++ py_repr path), w)
  | Some (RegularFile true content) => (Ok content, w)
  end.

(** ** Python values handled by the script *)

(** The PyPDF2 object classes, plus the two built-in values that can flow
    through the same variables: [None] (a dangling reference resolves to
    it) and a plain [str] (the default of [dict.get], a character obtained
    by iterating a string). *)
Inductive PyValue : Type :=
| PyNone
| PyStr (s : string)
| NullObject
| BooleanObject (b : bool)
| NumberObject (n : Z)
| NameObject (s : string)            (* subclass of str *)
| TextStringObject (s : string)      (* subclass of str *)
| ArrayObject (xs : list PyValue)    (* subclass of list *)
| DictionaryObject (d : gmap string PyValue)   (* subclass of dict *)
| IndirectObject (idnum generation : nat).

(** What [PdfReader(f)] gives access to: the trailer dictionary and the
    table of indirect objects, keyed by (object number, generation). *)
Record Reader : Type := mkReader {
  trailer : gmap string PyValue;
  objects : gmap (nat * nat) PyValue
}.

(** The environment of one run of the script: the PyPDF2 parser, the
    interpreter's message for an assignment to a property without
    setter, the address of the reader object in this run ([id]), and the
    library's rendering of the other objects that are not strings. *)
Class Environment : Type := {
  PdfReader : list byte → Exception * string + Reader;
  setter_error : string;
  reader_id : Z;
  repr : PyValue → string
}.

Definition type_name (o : PyValue) : string :=
  match o with
  | PyNone => "NoneType"
  | PyStr _ => "str"
  | NullObject => "NullObject"
  | BooleanObject _ => "BooleanObject"
  | NumberObject _ => "NumberObject"
  | NameObject _ => "NameObject"
  | TextStringObject _ => "TextStringObject"
  | ArrayObject _ => "ArrayObject"
  | DictionaryObject _ => "DictionaryObject"
  | IndirectObject _ _ => "IndirectObject"
  end.

(** The text of a value when it is a [str] or one of its subclasses. *)
Definition as_str (o : PyValue) : option string :=
  match o with
  | PyStr s | NameObject s | TextStringObject s => Some s
  | _ => None
  end.

(** [o == s] for a plain string [s]; never raises. *)
Definition py_eq_str (o : PyValue) (s : string) : bool :=
  match as_str o with
  | Some t => String.eqb t s
  | None => false
  end.

Definition is_substring (needle hay : string) : bool :=
  match String.index 0 needle hay with
  | Some _ => true
  | None => false
  end.

(** [key in o]: key membership on a dict, element membership on a list,
    substring test on a string, [TypeError] elsewhere. *)
Definition py_in (key : string) (o : PyValue) : Result bool :=
  match o with
  | DictionaryObject d => Ok (bool_decide (is_Some (d !! key)))
  | ArrayObject xs => Ok (existsb (λ x, py_eq_str x key) xs)
  | PyStr s | NameObject s | TextStringObject s => Ok (is_substring key s)
  | _ => raise_exc TypeError
           ("argument of type " ++ quote (type_name o) ++ " is not iterable")
  end.

(** [o.get_object()]: every PyPDF2 object returns itself, except an
    indirect reference, which asks the reader for its target.  The
    reader parses the target and attaches the reference to it; when the
    target is itself stored as a bare reference this fails, since
    [IndirectObject.indirect_reference] is a property without setter.
    A reference missing from the table resolves to [None]. *)
Definition self_get_object (o : PyValue) : Result PyValue :=
  match o with
  | PyNone | PyStr _ =>
      raise_exc AttributeError
        (quote (type_name o) ++ " object has no attribute 'get_object'")
  | _ => Ok o
  end.

Definition get_object `{Environment} (pdf : Reader) (o : PyValue) : Result PyValue :=
  match o with
  | IndirectObject n g =>
      match objects pdf !! (n, g) with
      | Some (IndirectObject _ _) => raise_exc AttributeError setter_error
      | Some target => self_get_object target
      | None => Ok PyNone
      end
  | _ => self_get_object o
  end.

(** [o[key]] for a string key: [DictionaryObject.__getitem__] looks the
    key up and resolves the value it finds. *)
Definition py_getitem `{Environment} (pdf : Reader) (o : PyValue) (key : string)
    : Result PyValue :=
  match o with
  | DictionaryObject d =>
      match d !! key with
      | Some v => get_object pdf v
      | None => raise_exc KeyError (py_repr key)
      end
  | ArrayObject _ =>
      raise_exc TypeError "list indices must be integers or slices, not str"
  | PyStr _ | NameObject _ | TextStringObject _ =>
      raise_exc TypeError "string indices must be integers, not 'str'"
  | _ => raise_exc TypeError (quote (type_name o) ++ " object is not subscriptable")
  end.

(** [o.get(key, dflt)]: the inherited [dict.get], which returns the
    stored value as it is (an indirect reference stays one). *)
Definition py_get (o : PyValue) (key dflt : string) : Result PyValue :=
  match o with
  | DictionaryObject d => Ok (default (PyStr dflt) (d !! key))
  | _ => raise_exc AttributeError
           (quote (type_name o) ++ " object has no attribute 'get'")
  end.

(** [len(o)] *)
Definition py_len (o : PyValue) : Result nat :=
  match o with
  | DictionaryObject d => Ok (size d)
  | ArrayObject xs => Ok (length xs)
  | PyStr s | NameObject s | TextStringObject s => Ok (String.length s)
  | _ => raise_exc TypeError
           ("object of type " ++ quote (type_name o) ++ " has no len()")
  end.

(** [iter(o)], materialised: the elements of a list, the keys of a dict,
    the characters of a string. *)
Definition py_iter (o : PyValue) : Result (list PyValue) :=
  match o with
  | ArrayObject xs => Ok xs
  | DictionaryObject d => Ok (NameObject <$> (map_to_list d).*1)
  | PyStr s | NameObject s | TextStringObject s =>
      Ok ((λ c, PyStr (String c EmptyString)) <$> list_ascii_of_string s)
  | _ => raise_exc TypeError (quote (type_name o) ++ " object is not iterable")
  end.

(** [f"{o}"].  An indirect reference is rendered with the address of
    the reader it belongs to. *)
Definition py_str `{Environment} (o : PyValue) : string :=
  match o with
  | PyStr s | NameObject s | TextStringObject s => s
  | NumberObject n => pretty n
  | IndirectObject n g =>
      "IndirectObject(" ++ pretty n ++ ", " ++ pretty g ++ ", "
        ++ pretty reader_id ++ ")"
  | _ => repr o
  end.

(** ** The script *)

Section Library.
Context `{Environment}.

(** [PyPDF2.PdfReader(f)] *)
Definition open_reader (f : list byte) : Result Reader :=
  match PdfReader f with
  | inl (cls, msg) => raise_exc cls msg
  | inr pdf => Ok pdf
  end.

(** [pdf_reader.trailer["/Root"]] *)
Definition trailer_root (pdf_reader : Reader) : Result PyValue :=
  py_getitem pdf_reader (DictionaryObject (trailer pdf_reader)) "/Root".

End Library.

(** The interpreter's exit status: 0 when the script runs to its end,
    the code of [sys.exit], 1 after an uncaught exception. *)
Definition exit_status (r : Result unit) : Z :=
  match r with
  | Ok _ => 0
  | Raise (SystemExit code) => code
  | Raise (Exc _ _) => 1
  end.


(** The script, on a given console. *)
Module Script.
Section Script.
Variable console : Console.
Context `{Environment}.

(** [print(s)]: the text is encoded as a whole before anything is
    written. *)
Definition py_print (s : string) : M unit := λ w,
  match encode_error console s with
  | None => (Ok (), emit [s] w)
  | Some msg => (raise_exc UnicodeEncodeError msg, w)
  end.

(** Lines 28-34: the six lines printed from the signature dictionary. *)
Definition print_signature_dictionary (pdf_reader : Reader) (field : PyValue)
    : M unit :=
  v ← lift (py_getitem pdf_reader field "/V");
  sig_dict ← lift (get_object pdf_reader v);
  x ← lift (py_get sig_dict "/Filter" "Unknown");
  py_print ("   - Filter: " ++ py_str x);;
  x ← lift (py_get sig_dict "/SubFilter" "Unknown");
  py_print ("   - SubFilter: " ++ py_str x);;
  x ← lift (py_get sig_dict "/Reason" "N/A");
  py_print ("   - Reason: " ++ py_str x);;
  x ← lift (py_get sig_dict "/Location" "N/A");
  py_print ("   - Location: " ++ py_str x);;
  x ← lift (py_get sig_dict "/M" "N/A");
  py_print ("   - Date: " ++ py_str x);;
  x ← lift (py_get sig_dict "/Name" "Unknown");
  py_print ("   - Signer: " ++ py_str x).

(** Lines 22-34: the body of [for field_ref in fields]. *)
Definition show_field (pdf_reader : Reader) (field_ref : PyValue) : M unit :=
  field ← lift (get_object pdf_reader field_ref);
  ft ← lift (py_getitem pdf_reader field "/FT");
  if py_eq_str ft "/Sig" then
    py_print "
📝 Signature Details:";;
    x ← lift (py_get field "/T" "Unknown");
    py_print ("   - Field Name: " ++ py_str x);;
    has_v ← lift (py_in "/V" field);
    if has_v : bool then print_signature_dictionary pdf_reader field
    else mret ()
  else mret ().

(** Lines 17-34: [if "/Fields" in acroform: ...]. *)
Definition show_fields (pdf_reader : Reader) (acroform : PyValue) : M unit :=
  has_fields ← lift (py_in "/Fields" acroform);
  if has_fields : bool then
    fields ← lift (py_getitem pdf_reader acroform "/Fields");
    n ← lift (py_len fields);
    py_print ("✓ Found " ++ pretty n ++ " signature field(s)");;
    items ← lift (py_iter fields);
    for_each items (show_field pdf_reader)
  else mret ().

(** Lines 12-38: [# Check for AcroForm (form fields)]. *)
Definition check_acroform (pdf_reader : Reader) : M bool :=
  root ← lift (trailer_root pdf_reader);
  has_acroform ← lift (py_in "/AcroForm" root);
  if has_acroform : bool then
    root ← lift (trailer_root pdf_reader);
    acroform ← lift (py_getitem pdf_reader root "/AcroForm");
    py_print "✓ PDF has AcroForm signature structure";;
    show_fields pdf_reader acroform;;
    mret true
  else
    py_print "✗ No signature found in PDF";;
    mret false.

(** Lines 8-38: what the [try] block runs. *)
Definition try_block (pdf_path : string) : M bool :=
  f ← py_open_rb pdf_path;
  pdf_reader ← lift (open_reader f);
  check_acroform pdf_reader.

(** Lines 40-42: [except Exception as e]. *)
Definition on_error (e : string) : M bool :=
  py_print ("✗ Error reading PDF: " ++ e);;
  mret false.

Definition verify_pdf_signature (pdf_path : string) : M bool :=
  try_except (try_block pdf_path) on_error.

(** Lines 44-49; [argv] is [sys.argv], script name included. *)
Definition main (argv : list string) : M unit :=
  (if bool_decide (length argv < 2) then
     py_print "Usage: python verify_signature.py <pdf_file>";;
     sys_exit 1
   else mret ());;
  match argv !! 1 with
  | Some pdf_path => verify_pdf_signature pdf_path;; mret ()
  | None => lift (raise_exc IndexError "list index out of range")
  end.

Definition run_script (argv : list string) (w : World) : Z * World :=
  let '(r, w') := main argv w in (exit_status r, w').

End Script.
End Script.

(** Where no console is named, the script runs on [unicode_console]. *)
Definition py_print : string → M unit := Script.py_print unicode_console.
Definition print_signature_dictionary `{Environment} : Reader → PyValue → M unit :=
  Script.print_signature_dictionary unicode_console.
Definition show_field `{Environment} : Reader → PyValue → M unit :=
  Script.show_field unicode_console.
Definition show_fields `{Environment} : Reader → PyValue → M unit :=
  Script.show_fields unicode_console.
Definition check_acroform `{Environment} : Reader → M bool :=
  Script.check_acroform unicode_console.
Definition try_block `{Environment} : string → M bool :=
  Script.try_block unicode_console.
Definition on_error : string → M bool := Script.on_error unicode_console.
Definition verify_pdf_signature `{Environment} : string → M bool :=
  Script.verify_pdf_signature unicode_console.
Definition main `{Environment} : list string → M unit :=
  Script.main unicode_console.
Definition run_script `{Environment} : list string → World → Z * World :=
  Script.run_script unicode_console.

(** The lines a computation adds to standard output. *)
Definition printed {A} (m : M A) (w : World) : list string :=
  drop (length (stdout w)) (stdout (m w).2).

(** ** The specification's vocabulary

    The specification speaks of an extractor that yields signature
    descriptors; the script prints them.  The definitions of this module
    follow the specification's words (section 4.2, steps 3 to 5, and the
    descriptor of section 6) and are compared with what the script prints. *)

Module Spec.
Section Spec.
Context `{Environment}.

(** The part of a descriptor read from the signature dictionary [/V]. *)
Record SignatureValue : Type := mkSignatureValue {
  filter_ : string;
  subFilter : string;
  reason : string;
  location : string;
  modificationDate : string;
  signerName : string
}.

Record Descriptor : Type := mkDescriptor {
  fieldName : string;
  signature : option SignatureValue
}.

(** "resolve to a dictionary" *)
Definition resolve_dict (pdf : Reader) (o : PyValue) : option (gmap string PyValue) :=
  match get_object pdf o with
  | Ok (DictionaryObject d) => Some d
  | _ => None
  end.

(** The document catalog, when the trailer's [/Root] resolves to a dictionary. *)
Definition catalog (pdf : Reader) : option (gmap string PyValue) :=
  trailer pdf !! "/Root" ≫= resolve_dict pdf.

(** The form dictionary, when the catalog has [/AcroForm] and it resolves
    to a dictionary. *)
Definition acroform (pdf : Reader) : option (gmap string PyValue) :=
  cat ← catalog pdf; a ← cat !! "/AcroForm"; resolve_dict pdf a.

(** The [/Fields] array of the form dictionary. *)
Definition fields (pdf : Reader) : option (list PyValue) :=
  form ← acroform pdf;
  f ← form !! "/Fields";
  match get_object pdf f with
  | Ok (ArrayObject xs) => Some xs
  | _ => None
  end.

(** The resolved [/FT] of a field dictionary. *)
Definition field_type (pdf : Reader) (fd : gmap string PyValue) : option PyValue :=
  ft ← fd !! "/FT";
  match get_object pdf ft with
  | Ok v => Some v
  | Raise _ => None
  end.

(** "fields whose [/FT] equals the signature-field marker" *)
Definition is_signature_field (pdf : Reader) (field_ref : PyValue) : bool :=
  match resolve_dict pdf field_ref ≫= field_type pdf with
  | Some v => py_eq_str v "/Sig"
  | None => false
  end.

(** A key's text, "defaulting to an explicit sentinel when absent". *)
Definition text_or (d : gmap string PyValue) (key sentinel : string) : string :=
  match d !! key with
  | Some v => py_str v
  | None => sentinel
  end.

Definition signature_value (sd : gmap string PyValue) : SignatureValue :=
  {| filter_ := text_or sd "/Filter" "Unknown";
     subFilter := text_or sd "/SubFilter" "Unknown";
     reason := text_or sd "/Reason" "N/A";
     location := text_or sd "/Location" "N/A";
     modificationDate := text_or sd "/M" "N/A";
     signerName := text_or sd "/Name" "Unknown" |}.

Definition describe (pdf : Reader) (field_ref : PyValue) : Descriptor :=
  let fd := default ∅ (resolve_dict pdf field_ref) in
  {| fieldName := text_or fd "/T" "Unknown";
     signature := signature_value <$> (fd !! "/V" ≫= resolve_dict pdf) |}.

(** "Yield one descriptor per qualifying field, preserving array order". *)
Definition extract (pdf : Reader) (fields : list PyValue) : list Descriptor :=
  describe pdf <$> filter (λ x, is_signature_field pdf x) fields.

(** A field the extractor can walk: it resolves to a dictionary whose
    [/FT] resolves, and the [/V] of a signature field, when present,
    resolves to a dictionary. *)
Definition well_formed_field (pdf : Reader) (field_ref : PyValue) : bool :=
  match resolve_dict pdf field_ref with
  | Some fd =>
      match field_type pdf fd with
      | Some v =>
          if py_eq_str v "/Sig" then
            match fd !! "/V" with
            | Some sv => bool_decide (is_Some (resolve_dict pdf sv))
            | None => true
            end
          else true
      | None => false
      end
  | None => false
  end.

(** How the script lays a descriptor out on standard output. *)
Definition render (d : Descriptor) : list string :=
  [ "
📝 Signature Details:";
    "   - Field Name: " ++ fieldName d ] ++
  match signature d with
  | Some s =>
      [ "   - Filter: " ++ filter_ s;
        "   - SubFilter: " ++ subFilter s;
        "   - Reason: " ++ reason s;
        "   - Location: " ++ location s;
        "   - Date: " ++ modificationDate s;
        "   - Signer: " ++ signerName s ]
  | None => []
  end.

(** The number of descriptors laid out in a sequence of printed lines:
    each one starts with the header line. *)
Definition descriptors_printed (lines : list string) : nat :=
  length (filter (λ l, l = "
📝 Signature Details:") lines).

(** [path] names a readable file that the library parses into [pdf]. *)
Definition loads (path : string) (w : World) (pdf : Reader) : Prop :=
  ∃ content, fs w !! path = Some (RegularFile true content)
             ∧ PdfReader content = inr pdf.

End Spec.
End Spec.

(** ** Cycles in the table of indirect objects *)

(** Object [a] is stored as a bare reference to object [b]. *)
Definition refers_to (objs : gmap (nat * nat) PyValue) (a b : nat * nat) : Prop :=
  objs !! a = Some (IndirectObject b.1 b.2).

(** Resolving [a] comes to an object whose resolution path revisits it. *)
Definition resolution_revisits (objs : gmap (nat * nat) PyValue) (a : nat * nat)
    : Prop :=
  ∃ b, rtc (refers_to objs) a b ∧ tc (refers_to objs) b b.

(** ** Sample documents and environments *)

Module Samples.

Definition some_bytes : list byte := [x25; x50; x44; x46].   (* %PDF *)

(** A parser that rejects the empty file, as PyPDF2 does, and reads
    every other file as [pdf]. *)
Definition env (pdf : Reader) : Environment :=
  {| PdfReader := λ f,
       match f with
       | [] => inl (LibraryError "EmptyFileError", "Cannot read an empty file")
       | _ => inr pdf
       end;
     setter_error := "can't set attribute 'indirect_reference'";
     reader_id := 4302614672;
     repr := type_name |}.

(** A console that encodes ASCII only. *)
Definition ascii_console : Console :=
  {| encode_error := λ s,
       if forallb (λ c, Nat.ltb (Ascii.nat_of_ascii c) 128) (list_ascii_of_string s)
       then None
       else Some "'ascii' codec can't encode characters: ordinal not in range(128)" |}.

Definition world_with (node : Node) : World :=
  {| fs := {[ "doc.pdf" := node ]}; stdout := [] |}.

Definition world : World := world_with (RegularFile true some_bytes).

Definition root_trailer : gmap string PyValue :=
  {[ "/Root" := IndirectObject 1 0 ]}.

(** No [/AcroForm] in the catalog. *)
Definition plain_catalog : gmap string PyValue :=
  {[ "/Type" := NameObject "/Catalog" ]}.

Definition unsigned_pdf : Reader :=
  {| trailer := root_trailer;
     objects := {[ (1, 0) := DictionaryObject plain_catalog ]} |}.

Definition form_catalog : gmap string PyValue :=
  {[ "/Type" := NameObject "/Catalog"; "/AcroForm" := IndirectObject 2 0 ]}.

(** [/AcroForm] without [/Fields]. *)
Definition bare_form : gmap string PyValue :=
  {[ "/SigFlags" := NumberObject 3 ]}.

Definition no_fields_pdf : Reader :=
  {| trailer := root_trailer;
     objects := {[ (1, 0) := DictionaryObject form_catalog;
                   (2, 0) := DictionaryObject bare_form ]} |}.

Definition form_with (fields : list PyValue) : gmap string PyValue :=
  {[ "/Fields" := ArrayObject fields ]}.

Definition approval : gmap string PyValue :=
  {[ "/Filter" := NameObject "/Adobe.PPKLite";
     "/Reason" := TextStringObject "Approval" ]}.

Definition signature_field (name : string) (v : PyValue) : gmap string PyValue :=
  {[ "/FT" := NameObject "/Sig"; "/T" := TextStringObject name; "/V" := v ]}.

Definition text_field : gmap string PyValue :=
  {[ "/FT" := NameObject "/Tx"; "/T" := TextStringObject "Comment" ]}.

(** Fields [A; text; B] with [A] and [B] signature fields. *)
Definition signed_fields : list PyValue :=
  [IndirectObject 3 0; IndirectObject 4 0; IndirectObject 5 0].

Definition signed_pdf : Reader :=
  {| trailer := root_trailer;
     objects :=
       {[ (1, 0) := DictionaryObject form_catalog;
          (2, 0) := DictionaryObject (form_with signed_fields);
          (3, 0) := DictionaryObject (signature_field "A" (IndirectObject 6 0));
          (4, 0) := DictionaryObject text_field;
          (5, 0) := DictionaryObject (signature_field "B" (IndirectObject 6 0));
          (6, 0) := DictionaryObject approval ]} |}.

(** A form whose only field is a text field. *)
Definition text_only_pdf : Reader :=
  {| trailer := root_trailer;
     objects :=
       {[ (1, 0) := DictionaryObject form_catalog;
          (2, 0) := DictionaryObject (form_with [IndirectObject 4 0]);
          (4, 0) := DictionaryObject text_field ]} |}.

(** Object 7 is stored as a reference to itself. *)
Definition cyclic_pdf : Reader :=
  {| trailer := root_trailer;
     objects :=
       {[ (1, 0) := DictionaryObject form_catalog;
          (2, 0) := DictionaryObject (form_with [IndirectObject 7 0]);
          (7, 0) := IndirectObject 7 0 ]} |}.

(** A signature field followed by a field dictionary without [/FT]. *)
Definition untyped_field : gmap string PyValue :=
  {[ "/T" := TextStringObject "Untyped" ]}.

Definition untyped_field_pdf : Reader :=
  {| trailer := root_trailer;
     objects :=
       {[ (1, 0) := DictionaryObject form_catalog;
          (2, 0) := DictionaryObject
                      (form_with [IndirectObject 3 0; IndirectObject 8 0]);
          (3, 0) := DictionaryObject (signature_field "A" (IndirectObject 6 0));
          (6, 0) := DictionaryObject approval;
          (8, 0) := DictionaryObject untyped_field ]} |}.

(** A reader over [form_catalog] whose form lists [fields], with the
    given field objects. *)
Definition form_pdf (fields : list PyValue) (field_objects : gmap (nat * nat) PyValue)
    : Reader :=
  {| trailer := root_trailer;
     objects := <[ (1, 0) := DictionaryObject form_catalog ]>
                (<[ (2, 0) := DictionaryObject (form_with fields) ]> field_objects) |}.

(** A signature field that has not been signed: no [/V]. *)
Definition blank_signature_field : gmap string PyValue :=
  {[ "/FT" := NameObject "/Sig"; "/T" := TextStringObject "Blank" ]}.

Definition blank_pdf : Reader :=
  form_pdf [IndirectObject 3 0]
    {[ (3, 0) := DictionaryObject blank_signature_field ]}.

(** A signature field whose [/V] is a number. *)
Definition odd_value_pdf : Reader :=
  form_pdf [IndirectObject 3 0]
    {[ (3, 0) := DictionaryObject (signature_field "Odd" (NumberObject 5)) ]}.

(** A field without [/FT] in front of a signature field. *)
Definition hidden_signature_pdf : Reader :=
  form_pdf [IndirectObject 8 0; IndirectObject 3 0]
    {[ (3, 0) := DictionaryObject (signature_field "A" (IndirectObject 6 0));
       (6, 0) := DictionaryObject approval;
       (8, 0) := DictionaryObject untyped_field ]}.

(** Object 7 is stored as a reference to object 8, a field dictionary:
    a chain without a cycle. *)
Definition chained_pdf : Reader :=
  form_pdf [IndirectObject 7 0]
    {[ (7, 0) := IndirectObject 8 0;
       (8, 0) := DictionaryObject text_field ]}.



(** A trailer without [/Root]. *)
Definition rootless_pdf : Reader := {| trailer := ∅; objects := ∅ |}.

(** A catalog whose [/AcroForm] is a number. *)
Definition scalar_form_catalog : gmap string PyValue :=
  {[ "/AcroForm" := NumberObject 1 ]}.

Definition scalar_form_pdf : Reader :=
  {| trailer := root_trailer;
     objects := {[ (1, 0) := DictionaryObject scalar_form_catalog ]} |}.


(** A readable file that the parser rejects. *)
Definition empty_file_world : World := world_with (RegularFile true []).

End Samples.

(** ** Effect discipline

    Past [open], the script only prints and raises: its result and the
    lines it prints do not depend on the world, and what it raises is
    below [Exception]. *)

(** A result that [except Exception] handles or lets return. *)
Definition catchable {A} (r : Result A) : Prop :=
  ∀ code, r ≠ Raise (SystemExit code).

Definition tame {A} (m : M A) : Prop :=
  ∃ r out, catchable r ∧ ∀ w, m w = (r, emit out w).



(** The console cannot encode a text that starts with the script's
    check mark or cross mark. *)
Definition lacks_marks (console : Console) : Prop :=
  ∀ s, encode_error console ("✓" +:+ s) ≠ None
       ∧ encode_error console ("✗" +:+ s) ≠ None.

(** ** Shape of the output *)

(** The texts that report a negative outcome start with the cross mark. *)
Definition is_failure_line (l : string) : bool := String.prefix "✗" l.

(** [m] prints texts that satisfy [P] only, whatever the world. *)
Definition prints {A} (P : string → Prop) (m : M A) : Prop :=
  ∃ r out, catchable r ∧ Forall P out ∧ ∀ w, m w = (r, emit out w).

(** A field the loop cannot get a type from: it does not resolve to a
    dictionary, or its [/FT] is missing or does not resolve. *)
Definition unreadable_field `{Environment} (pdf : Reader) (field_ref : PyValue) : Prop :=
  Spec.resolve_dict pdf field_ref ≫= Spec.field_type pdf = None.

(** * Verification *)

(** ** Running computations *)

Lemma emit_nil w : emit [] w = w.
Proof. destruct w as [f out]. unfold emit; simpl. by rewrite app_nil_r. Qed.

Lemma emit_emit l1 l2 w : emit l2 (emit l1 w) = emit (l1 ++ l2)%list w.
Proof. unfold emit; simpl. by rewrite app_assoc. Qed.

Lemma fs_emit l w : fs (emit l w) = fs w.
Proof. done. Qed.

Lemma stdout_emit l w : stdout (emit l w) = (stdout w ++ l)%list.
Proof. done. Qed.

Lemma bind_run {A B} (m : M A) (k : A → M B) w :
  (m ≫= k) w = match m w with
               | (Ok a, w') => k a w'
               | (Raise e, w') => (Raise e, w')
               end.
Proof. done. Qed.

Lemma bind_lift_Ok {A B} (a : A) (k : A → M B) w : (lift (Ok a) ≫= k) w = k a w.
Proof. done. Qed.

Lemma bind_lift_Raise {A B} e (k : A → M B) w :
  (lift (Raise e) ≫= k) w = (Raise e, w).
Proof. done. Qed.

Lemma bind_print {B} s (k : unit → M B) w : (py_print s ≫= k) w = k () (emit [s] w).
Proof. done. Qed.

Lemma for_each_app {A} (xs ys : list A) (body : A → M unit) w :
  for_each (xs ++ ys)%list body w = (for_each xs body;; for_each ys body) w.
Proof.
  revert w. induction xs as [|x xs IH]; intros w; simpl; [done|].
  rewrite !bind_run. destruct (body x w) as [[[]|e] w1]; [|done].
  by rewrite IH.
Qed.

(** After unfolding a definition of the script on [unicode_console],
    name the parts it calls again. *)
Ltac fold_script :=
  change (Script.py_print unicode_console) with py_print in *;
  change (@Script.print_signature_dictionary unicode_console)
    with (@print_signature_dictionary) in *;
  change (@Script.show_field unicode_console) with (@show_field) in *;
  change (@Script.show_fields unicode_console) with (@show_fields) in *;
  change (@Script.check_acroform unicode_console) with (@check_acroform) in *;
  change (@Script.try_block unicode_console) with (@try_block) in *;
  change (Script.on_error unicode_console) with on_error in *;
  change (@Script.verify_pdf_signature unicode_console)
    with (@verify_pdf_signature) in *;
  change (@Script.main unicode_console) with (@main) in *.

(** Rewrite a run step by step. *)
Ltac step :=
  repeat first
    [ rewrite bind_lift_Ok
    | rewrite bind_lift_Raise
    | rewrite bind_print
    | rewrite emit_emit ].

(** ** The dynamic operations on well-typed operands *)

Section Operations.
Context `{Environment}.

Lemma get_object_dict pdf d :
  get_object pdf (DictionaryObject d) = Ok (DictionaryObject d).
Proof. done. Qed.

Lemma resolve_dict_Some pdf o d :
  Spec.resolve_dict pdf o = Some d → get_object pdf o = Ok (DictionaryObject d).
Proof.
  unfold Spec.resolve_dict. destruct (get_object pdf o) as [[]|]; naive_solver.
Qed.

Lemma py_getitem_dict pdf d key v :
  d !! key = Some v → py_getitem pdf (DictionaryObject d) key = get_object pdf v.
Proof. intros Hv. unfold py_getitem. by rewrite Hv. Qed.

Lemma py_in_dict key d :
  py_in key (DictionaryObject d) = Ok (bool_decide (is_Some (d !! key))).
Proof. done. Qed.

Lemma py_in_dict_Some key d v :
  d !! key = Some v → py_in key (DictionaryObject d) = Ok true.
Proof. intros Hv. rewrite py_in_dict, bool_decide_eq_true_2; eauto. Qed.

Lemma py_in_dict_None key d :
  d !! key = None → py_in key (DictionaryObject d) = Ok false.
Proof.
  intros Hv. rewrite py_in_dict, bool_decide_eq_false_2; [done|].
  rewrite Hv. by intros [? ?].
Qed.

Lemma py_get_dict d key sentinel :
  py_get (DictionaryObject d) key sentinel
  = Ok (default (PyStr sentinel) (d !! key)).
Proof. done. Qed.

Lemma py_str_default d key sentinel :
  py_str (default (PyStr sentinel) (d !! key)) = Spec.text_or d key sentinel.
Proof. unfold Spec.text_or. by destruct (d !! key). Qed.

Lemma trailer_root_catalog pdf cat :
  Spec.catalog pdf = Some cat → trailer_root pdf = Ok (DictionaryObject cat).
Proof.
  unfold Spec.catalog, trailer_root. intros Hc.
  destruct (trailer pdf !! "/Root") as [r|] eqn:Hr; [|done].
  rewrite (py_getitem_dict _ _ _ _ Hr). by apply resolve_dict_Some.
Qed.

End Operations.

(** ** One field of [/Fields] *)

Section Fields.
Context `{Environment}.

Lemma print_signature_dictionary_run pdf fd sv sd w :
  fd !! "/V" = Some sv →
  Spec.resolve_dict pdf sv = Some sd →
  print_signature_dictionary pdf (DictionaryObject fd) w
  = (Ok (),
     emit [ "   - Filter: " ++ Spec.text_or sd "/Filter" "Unknown";
            "   - SubFilter: " ++ Spec.text_or sd "/SubFilter" "Unknown";
            "   - Reason: " ++ Spec.text_or sd "/Reason" "N/A";
            "   - Location: " ++ Spec.text_or sd "/Location" "N/A";
            "   - Date: " ++ Spec.text_or sd "/M" "N/A";
            "   - Signer: " ++ Spec.text_or sd "/Name" "Unknown" ] w).
Proof.
  intros Hv Hsd. unfold print_signature_dictionary, Script.print_signature_dictionary. fold_script.
  rewrite (py_getitem_dict _ _ _ _ Hv), (resolve_dict_Some _ _ _ Hsd).
  step. rewrite get_object_dict. step.
  rewrite !py_get_dict. step. rewrite !py_str_default.
  unfold py_print, Script.py_print. fold_script. by rewrite emit_emit.
Qed.

(** The script's loop body on a field that is not a signature field. *)
Lemma show_field_other pdf field_ref fd v w :
  Spec.resolve_dict pdf field_ref = Some fd →
  Spec.field_type pdf fd = Some v →
  py_eq_str v "/Sig" = false →
  show_field pdf field_ref w = (Ok (), w).
Proof.
  intros Hfd Hft Hv. unfold show_field, Script.show_field. fold_script.
  rewrite (resolve_dict_Some _ _ _ Hfd). step.
  unfold Spec.field_type in Hft.
  destruct (fd !! "/FT") as [ft|] eqn:Hlk; [|done]. simpl in Hft.
  rewrite (py_getitem_dict _ _ _ _ Hlk).
  destruct (get_object pdf ft) as [v'|]; [|done].
  injection Hft as ->. step. by rewrite Hv.
Qed.

(** The loop body on a signature field: what it prints is the rendering
    of the field's descriptor. *)
Lemma show_field_signature pdf field_ref fd v w :
  Spec.resolve_dict pdf field_ref = Some fd →
  Spec.field_type pdf fd = Some v →
  py_eq_str v "/Sig" = true →
  match fd !! "/V" with
  | Some sv => is_Some (Spec.resolve_dict pdf sv)
  | None => True
  end →
  show_field pdf field_ref w
  = (Ok (), emit (Spec.render (Spec.describe pdf field_ref)) w).
Proof.
  intros Hfd Hft Hv Hsv. unfold show_field, Script.show_field. fold_script.
  rewrite (resolve_dict_Some _ _ _ Hfd). step.
  unfold Spec.field_type in Hft.
  destruct (fd !! "/FT") as [ft|] eqn:Hlk; [|done]. simpl in Hft.
  rewrite (py_getitem_dict _ _ _ _ Hlk).
  destruct (get_object pdf ft) as [v'|]; [|done].
  injection Hft as ->. step. rewrite Hv. step.
  rewrite py_get_dict. step. rewrite py_str_default.
  unfold Spec.describe, Spec.render. rewrite Hfd.
  destruct (fd !! "/V") as [sv|] eqn:HV.
  - destruct Hsv as [sd Hsd].
    rewrite (py_in_dict_Some _ _ _ HV). step.
    rewrite (print_signature_dictionary_run _ _ _ _ _ HV Hsd).
    simpl. rewrite HV. simpl. rewrite Hsd. simpl. by rewrite emit_emit.
  - rewrite (py_in_dict_None _ _ HV). step. simpl. by rewrite HV.
Qed.

Lemma show_field_well_formed pdf field_ref w :
  Spec.well_formed_field pdf field_ref = true →
  show_field pdf field_ref w
  = (Ok (), emit (if Spec.is_signature_field pdf field_ref
                  then Spec.render (Spec.describe pdf field_ref) else []) w).
Proof.
  unfold Spec.well_formed_field, Spec.is_signature_field. intros Hwf.
  destruct (Spec.resolve_dict pdf field_ref) as [fd|] eqn:Hfd; [|done]. simpl.
  destruct (Spec.field_type pdf fd) as [v|] eqn:Hft; [|done].
  destruct (py_eq_str v "/Sig") eqn:Hv.
  - apply (show_field_signature _ _ fd v); [done..|].
    destruct (fd !! "/V"); [|done]. by apply bool_decide_eq_true in Hwf.
  - rewrite emit_nil. by apply (show_field_other _ _ fd v).
Qed.

(** The loop over well-formed fields prints the descriptors of the
    signature fields, in array order, and raises nothing. *)
Lemma for_each_show_field pdf fields w :
  Forall (λ x, Spec.well_formed_field pdf x = true) fields →
  for_each fields (show_field pdf) w
  = (Ok (), emit (concat (Spec.render <$> Spec.extract pdf fields)) w).
Proof.
  intros Hwf. revert w. unfold Spec.extract.
  induction Hwf as [|x xs Hx _ IH]; intros w; simpl.
  { by rewrite emit_nil. }
  rewrite bind_run, (show_field_well_formed _ _ _ Hx), IH, emit_emit.
  rewrite filter_cons.
  by destruct (Spec.is_signature_field pdf x).
Qed.

End Fields.

(** ** The whole function, branch by branch *)

Section Branches.
Context `{Environment}.

Lemma try_except_Ok {A} (body : M A) handler w a w' :
  body w = (Ok a, w') → try_except body handler w = (Ok a, w').
Proof. unfold try_except. by intros ->. Qed.

Lemma try_except_Exc {A} (body : M A) handler w cls msg w' :
  body w = (Raise (Exc cls msg), w') → try_except body handler w = handler msg w'.
Proof. unfold try_except. by intros ->. Qed.

Lemma verify_pdf_signature_Ok path w b w' :
  try_block path w = (Ok b, w') → verify_pdf_signature path w = (Ok b, w').
Proof. apply try_except_Ok. Qed.

Lemma verify_pdf_signature_Exc path w cls msg w' :
  try_block path w = (Raise (Exc cls msg), w') →
  verify_pdf_signature path w = on_error msg w'.
Proof. apply (try_except_Exc (try_block path) on_error). Qed.

Lemma on_error_run msg w :
  on_error msg w = (Ok false, emit ["✗ Error reading PDF: " ++ msg] w).
Proof. done. Qed.

Lemma try_block_loads path w pdf :
  Spec.loads path w pdf → try_block path w = check_acroform pdf w.
Proof.
  intros (content & Hfile & Hparse). unfold try_block, Script.try_block. fold_script.
  rewrite bind_run. unfold py_open_rb. rewrite Hfile.
  unfold open_reader. rewrite Hparse. by step.
Qed.

Lemma check_acroform_absent pdf cat w :
  Spec.catalog pdf = Some cat →
  cat !! "/AcroForm" = None →
  check_acroform pdf w = (Ok false, emit ["✗ No signature found in PDF"] w).
Proof.
  intros Hcat Hno. unfold check_acroform, Script.check_acroform. fold_script.
  rewrite (trailer_root_catalog _ _ Hcat). step.
  rewrite (py_in_dict_None _ _ Hno). by step.
Qed.

Lemma check_acroform_present pdf cat a w :
  Spec.catalog pdf = Some cat →
  cat !! "/AcroForm" = Some a →
  check_acroform pdf w
  = (acroform ← lift (get_object pdf a);
     py_print "✓ PDF has AcroForm signature structure";;
     show_fields pdf acroform;;
     mret true) w.
Proof.
  intros Hcat Ha. unfold check_acroform, Script.check_acroform. fold_script.
  rewrite (trailer_root_catalog _ _ Hcat). step.
  rewrite (py_in_dict_Some _ _ _ Ha). step.
  by rewrite (py_getitem_dict _ _ _ _ Ha).
Qed.

Lemma show_fields_absent pdf form w :
  form !! "/Fields" = None → show_fields pdf (DictionaryObject form) w = (Ok (), w).
Proof.
  intros Hno. unfold show_fields, Script.show_fields. fold_script. rewrite (py_in_dict_None _ _ Hno). by step.
Qed.

Lemma show_fields_array pdf form f fields w :
  form !! "/Fields" = Some f →
  get_object pdf f = Ok (ArrayObject fields) →
  show_fields pdf (DictionaryObject form) w
  = for_each fields (show_field pdf)
      (emit ["✓ Found " ++ pretty (length fields) ++ " signature field(s)"] w).
Proof.
  intros Hf Harr. unfold show_fields, Script.show_fields. fold_script.
  rewrite (py_in_dict_Some _ _ _ Hf). step.
  rewrite (py_getitem_dict _ _ _ _ Hf), Harr. by step.
Qed.

End Branches.

(** ** Effect discipline: closure properties *)

Lemma catchable_Ok {A} (a : A) : catchable (Ok a).
Proof. by intros code. Qed.

Lemma catchable_raise_exc {A} cls msg : catchable (@raise_exc A cls msg).
Proof. by intros code. Qed.

Create HintDb tame.
#[local] Hint Resolve catchable_Ok catchable_raise_exc : tame.

Lemma tame_lift {A} (r : Result A) : catchable r → tame (lift r).
Proof.
  intros Hr. exists r, []. split; [done|]. intros w. by rewrite emit_nil.
Qed.

Lemma tame_ret {A} (a : A) : tame (mret a).
Proof. apply (tame_lift (Ok a)), catchable_Ok. Qed.

Lemma tame_print s : tame (py_print s).
Proof. exists (Ok ()), [s]. split; [apply catchable_Ok|done]. Qed.

Lemma tame_bind {A B} (m : M A) (k : A → M B) :
  tame m → (∀ a, tame (k a)) → tame (m ≫= k).
Proof.
  intros (r & out & Hr & Hm) Hk. destruct r as [a|e].
  - destruct (Hk a) as (r' & out' & Hr' & Hka).
    exists r', (out ++ out')%list. split; [done|]. intros w.
    by rewrite bind_run, Hm, Hka, emit_emit.
  - exists (Raise e), out. split; [intros code [= ->]; by apply (Hr code)|].
    intros w. by rewrite bind_run, Hm.
Qed.

Lemma tame_for_each {A} (xs : list A) (body : A → M unit) :
  (∀ x, tame (body x)) → tame (for_each xs body).
Proof.
  intros Hbody. induction xs as [|x xs IH]; simpl.
  - apply tame_ret.
  - apply tame_bind; [apply Hbody | by intros _].
Qed.

Section Effects.
Context `{Environment}.

Lemma catchable_self_get_object o : catchable (self_get_object o).
Proof. destruct o; simpl; auto with tame. Qed.

Lemma catchable_get_object pdf o : catchable (get_object pdf o).
Proof.
  destruct o; simpl; auto with tame.
  destruct (objects pdf !! _) as [[]|]; simpl; auto with tame.
Qed.

Lemma catchable_py_getitem pdf o key : catchable (py_getitem pdf o key).
Proof.
  destruct o; simpl; auto with tame.
  destruct (_ !! _); auto using catchable_get_object with tame.
Qed.

Lemma catchable_py_in key o : catchable (py_in key o).
Proof. destruct o; simpl; auto with tame. Qed.

Lemma catchable_py_get o key sentinel : catchable (py_get o key sentinel).
Proof. destruct o; simpl; auto with tame. Qed.

Lemma catchable_py_len o : catchable (py_len o).
Proof. destruct o; simpl; auto with tame. Qed.

Lemma catchable_py_iter o : catchable (py_iter o).
Proof. destruct o; simpl; auto with tame. Qed.

Lemma catchable_open_reader f : catchable (open_reader f).
Proof. unfold open_reader. destruct (PdfReader f) as [[cls msg]|pdf]; auto with tame. Qed.

#[local] Hint Resolve catchable_get_object catchable_py_getitem catchable_py_in
  catchable_py_get catchable_py_len catchable_py_iter catchable_open_reader : tame.

(** Discharge [tame] goals along the structure of the computation. *)
Ltac tame :=
  repeat match goal with
    | |- tame (mret _) => apply tame_ret
    | |- tame (py_print _) => apply tame_print
    | |- tame (lift _) => apply tame_lift; auto with tame
    | |- tame (for_each _ _) => apply tame_for_each; intros ?
    | |- tame (_ ≫= _) => apply tame_bind; [|intros ?]
    | |- tame (if ?b then _ else _) => destruct b
    end.

Lemma tame_print_signature_dictionary pdf field :
  tame (print_signature_dictionary pdf field).
Proof. unfold print_signature_dictionary, Script.print_signature_dictionary. fold_script. tame. Qed.

Lemma tame_show_field pdf field_ref : tame (show_field pdf field_ref).
Proof.
  unfold show_field, Script.show_field. fold_script. tame. apply tame_print_signature_dictionary.
Qed.

Lemma tame_show_fields pdf acroform : tame (show_fields pdf acroform).
Proof. unfold show_fields, Script.show_fields. fold_script. tame. apply tame_show_field. Qed.

Lemma tame_check_acroform pdf : tame (check_acroform pdf).
Proof.
  unfold check_acroform, Script.check_acroform, trailer_root. fold_script. tame; apply tame_show_fields.
Qed.

Lemma tame_after_open f : tame (lift (open_reader f) ≫= check_acroform).
Proof. tame. apply tame_check_acroform. Qed.

(** The run of [verify_pdf_signature] is fixed by what the file system
    holds at [path]: it returns a boolean, never raises, and only adds
    lines to standard output. *)
Lemma verify_pdf_signature_run path w :
  ∃ b out, ∀ w', fs w' !! path = fs w !! path →
    verify_pdf_signature path w' = (Ok b, emit out w').
Proof.
  unfold verify_pdf_signature, Script.verify_pdf_signature, try_except, try_block, Script.try_block. fold_script.
  destruct (fs w !! path) as [[[] content|]|] eqn:Hnode.
  - destruct (tame_after_open content) as (r & out & Hr & Hrun).
    destruct r as [b|[cls msg|code]]; [| |by destruct (Hr code)].
    + exists b, out. intros w' Hw'.
      rewrite bind_run. unfold py_open_rb at 1. by rewrite Hw', Hrun.
    + exists false, (out ++ ["✗ Error reading PDF: " +:+ msg])%list. intros w' Hw'.
      rewrite bind_run. unfold py_open_rb at 1.
      by rewrite Hw', Hrun, on_error_run, emit_emit.
  - eexists false, [_]. intros w' Hw'.
    rewrite bind_run. unfold py_open_rb at 1. rewrite Hw'. simpl.
    by rewrite on_error_run.
  - eexists false, [_]. intros w' Hw'.
    rewrite bind_run. unfold py_open_rb at 1. rewrite Hw'. simpl.
    by rewrite on_error_run.
  - eexists false, [_]. intros w' Hw'.
    rewrite bind_run. unfold py_open_rb at 1. rewrite Hw'. simpl.
    by rewrite on_error_run.
Qed.

Lemma printed_emit {A} (m : M A) w r out :
  m w = (r, emit out w) → printed m w = out.
Proof.
  unfold printed. intros ->. simpl. by rewrite drop_app_length.
Qed.

End Effects.

(** ** Documents with and without a form *)

Section Documents.
Context `{Environment}.

Lemma descriptors_printed_render d : Spec.descriptors_printed (Spec.render d) = 1.
Proof.
  unfold Spec.descriptors_printed, Spec.render.
  by destruct (Spec.signature d).
Qed.

Lemma descriptors_printed_app l1 l2 :
  Spec.descriptors_printed (l1 ++ l2)
  = Spec.descriptors_printed l1 + Spec.descriptors_printed l2.
Proof. unfold Spec.descriptors_printed. by rewrite filter_app, length_app. Qed.

Lemma descriptors_printed_concat ds :
  Spec.descriptors_printed (concat (Spec.render <$> ds)) = length ds.
Proof.
  induction ds as [|d ds IH]; [done|]. cbn [fmap list_fmap concat length].
  by rewrite descriptors_printed_app, descriptors_printed_render, IH.
Qed.

Lemma verify_acroform_absent path w pdf cat :
  Spec.loads path w pdf →
  Spec.catalog pdf = Some cat →
  cat !! "/AcroForm" = None →
  try_block path w = (Ok false, emit ["✗ No signature found in PDF"] w).
Proof.
  intros Hload Hcat Hno.
  by rewrite (try_block_loads _ _ _ Hload), (check_acroform_absent _ _ _ Hcat Hno).
Qed.

Lemma try_block_acroform path w pdf form :
  Spec.loads path w pdf →
  Spec.acroform pdf = Some form →
  try_block path w
  = (show_fields pdf (DictionaryObject form);; mret true)
      (emit ["✓ PDF has AcroForm signature structure"] w).
Proof.
  intros Hload Hform. unfold Spec.acroform in Hform.
  destruct (Spec.catalog pdf) as [cat|] eqn:Hcat; [|done]. simpl in Hform.
  destruct (cat !! "/AcroForm") as [a|] eqn:Ha; [|done]. simpl in Hform.
  rewrite (try_block_loads _ _ _ Hload), (check_acroform_present _ _ _ _ Hcat Ha).
  rewrite (resolve_dict_Some _ _ _ Hform). by step.
Qed.

Lemma try_block_fields path w pdf xs :
  Spec.loads path w pdf →
  Spec.fields pdf = Some xs →
  try_block path w
  = (for_each xs (show_field pdf);; mret true)
      (emit [ "✓ PDF has AcroForm signature structure";
              "✓ Found " ++ pretty (length xs) ++ " signature field(s)" ] w).
Proof.
  intros Hload Hxs. unfold Spec.fields in Hxs.
  destruct (Spec.acroform pdf) as [form|] eqn:Hform; [|done]. simpl in Hxs.
  destruct (form !! "/Fields") as [f|] eqn:Hf; [|done]. simpl in Hxs.
  destruct (get_object pdf f) as [[]|] eqn:Hget; try done.
  injection Hxs as ->.
  rewrite (try_block_acroform _ _ _ _ Hload Hform), !bind_run.
  by rewrite (show_fields_array _ _ _ _ _ Hf Hget), emit_emit.
Qed.

Lemma run_script_usage argv w :
  length argv < 2 →
  run_script argv w = (1%Z, emit ["Usage: python verify_signature.py <pdf_file>"] w).
Proof.
  intros Hlen. unfold run_script, Script.run_script, main, Script.main. fold_script.
  rewrite bind_run, bool_decide_eq_true_2 by done. by step.
Qed.

Lemma run_script_verify argv path w :
  argv !! 1 = Some path →
  main argv w = (verify_pdf_signature path;; mret ()) w.
Proof.
  intros Harg. unfold main, Script.main. fold_script.
  rewrite bind_run, bool_decide_eq_false_2.
  - by rewrite Harg.
  - apply lookup_lt_Some in Harg. lia.
Qed.

Lemma run_script_returns argv path w b w' :
  argv !! 1 = Some path →
  verify_pdf_signature path w = (Ok b, w') →
  run_script argv w = (0%Z, w').
Proof.
  intros Harg Hrun. unfold run_script, Script.run_script. fold_script.
  by rewrite (run_script_verify _ _ _ Harg), bind_run, Hrun.
Qed.

(** The function returns [True] exactly when its [try] block does. *)
Lemma verify_true_iff path w :
  (verify_pdf_signature path w).1 = Ok true ↔ (try_block path w).1 = Ok true.
Proof.
  unfold verify_pdf_signature, Script.verify_pdf_signature, try_except. fold_script.
  by destruct (try_block path w) as [[b|[cls msg|code]] w'].
Qed.

(** A block that ends in [return True] returns [True] or raises. *)
Lemma then_true_iff (m : M unit) w :
  ((m;; mret true) w).1 = Ok true ↔ is_Ok ((m;; mret true) w).1 = true.
Proof. rewrite bind_run. by destruct (m w) as [[[]|e] w']. Qed.

End Documents.

(** ** The claims *)

Section Claims.
Context `{Environment}.

(** C2.  When the document catalog has no [/AcroForm] key, no signature
    descriptor is produced, nothing is raised (the [try] block runs to its
    end and the handler is not entered), and the outcome is the unsigned
    one: the function prints that no signature was found and returns
    [False], and the script exits with status 0. *)
Theorem no_acroform_is_unsigned path w pdf cat :
  Spec.loads path w pdf →
  Spec.catalog pdf = Some cat →
  cat !! "/AcroForm" = None →
  try_block path w = (Ok false, emit ["✗ No signature found in PDF"] w)
  ∧ verify_pdf_signature path w
    = (Ok false, emit ["✗ No signature found in PDF"] w)
  ∧ Spec.descriptors_printed (printed (verify_pdf_signature path) w) = 0
  ∧ ∀ script, (run_script [script; path] w).1 = 0%Z.
Proof.
  intros Hload Hcat Hno.
  pose proof (verify_acroform_absent _ _ _ _ Hload Hcat Hno) as Htry.
  pose proof (try_except_Ok _ on_error _ _ _ Htry) as Hrun.
  change (try_except (try_block path) on_error) with (verify_pdf_signature path) in Hrun.
  repeat split; [done..| |].
  - by rewrite (printed_emit _ _ _ _ Hrun).
  - intros script. by rewrite (run_script_returns [script; path] path w _ _ eq_refl Hrun).
Qed.

(** C7.  When the catalog has [/AcroForm] but the form dictionary has no
    [/Fields] key, the function returns without error and no descriptor
    is produced. *)
Theorem acroform_without_fields path w pdf form :
  Spec.loads path w pdf →
  Spec.acroform pdf = Some form →
  form !! "/Fields" = None →
  try_block path w
  = (Ok true, emit ["✓ PDF has AcroForm signature structure"] w)
  ∧ verify_pdf_signature path w
    = (Ok true, emit ["✓ PDF has AcroForm signature structure"] w)
  ∧ Spec.descriptors_printed (printed (verify_pdf_signature path) w) = 0.
Proof.
  intros Hload Hform Hno.
  assert (try_block path w
          = (Ok true, emit ["✓ PDF has AcroForm signature structure"] w)) as Htry.
  { rewrite (try_block_acroform _ _ _ _ Hload Hform), bind_run.
    by rewrite (show_fields_absent _ _ _ Hno). }
  pose proof (try_except_Ok _ on_error _ _ _ Htry) as Hrun.
  change (try_except (try_block path) on_error) with (verify_pdf_signature path) in Hrun.
  repeat split; [done..|].
  by rewrite (printed_emit _ _ _ _ Hrun).
Qed.

(** C5.  Over a [/Fields] array of well-formed fields, the script prints
    exactly one descriptor per signature field, in the order of the
    array: after its two summary lines, its output is the rendering of
    [Spec.extract], the descriptors of the qualifying fields in array
    order. *)
Theorem descriptors_in_array_order path w pdf xs :
  Spec.loads path w pdf →
  Spec.fields pdf = Some xs →
  Forall (λ x, Spec.well_formed_field pdf x = true) xs →
  verify_pdf_signature path w
  = (Ok true,
     emit ([ "✓ PDF has AcroForm signature structure";
             "✓ Found " +:+ pretty (length xs) +:+ " signature field(s)" ]
           ++ concat (Spec.render <$> Spec.extract pdf xs)) w)
  ∧ Spec.descriptors_printed (printed (verify_pdf_signature path) w)
    = length (filter (λ x, Spec.is_signature_field pdf x) xs).
Proof.
  intros Hload Hxs Hwf.
  match goal with |- ?run = (_, emit ?out _) ∧ _ =>
    assert (run = (Ok true, emit out w)) as Hrun end.
  { apply verify_pdf_signature_Ok.
    rewrite (try_block_fields _ _ _ _ Hload Hxs), bind_run.
    by rewrite (for_each_show_field _ _ _ Hwf), emit_emit. }
  split; [done|].
  rewrite (printed_emit _ _ _ _ Hrun), descriptors_printed_app.
  rewrite descriptors_printed_concat. unfold Spec.extract.
  by rewrite length_fmap.
Qed.

(** C3.  For a readable PDF, [verify_pdf_signature] returns [True]
    exactly when the catalog has the [/AcroForm] key and the [try] block
    raises nothing; in particular it returns [True] when the form has no
    [/Fields] and when [/Fields] holds no signature field. *)
Theorem returns_true_iff_acroform path w pdf cat :
  Spec.loads path w pdf →
  Spec.catalog pdf = Some cat →
  ((verify_pdf_signature path w).1 = Ok true
   ↔ is_Some (cat !! "/AcroForm") ∧ is_Ok (try_block path w).1 = true)
  ∧ (∀ form, Spec.acroform pdf = Some form → form !! "/Fields" = None →
       (verify_pdf_signature path w).1 = Ok true)
  ∧ (∀ xs, Spec.fields pdf = Some xs →
       Forall (λ x, Spec.well_formed_field pdf x = true
                    ∧ Spec.is_signature_field pdf x = false) xs →
       (verify_pdf_signature path w).1 = Ok true
       ∧ Spec.descriptors_printed (printed (verify_pdf_signature path) w) = 0).
Proof.
  intros Hload Hcat. split; [|split].
  - rewrite verify_true_iff.
    destruct (cat !! "/AcroForm") as [a|] eqn:Ha.
    + rewrite (try_block_loads _ _ _ Hload).
      rewrite (check_acroform_present _ _ _ _ Hcat Ha).
      destruct (get_object pdf a) as [acro|e]; step.
      * rewrite then_true_iff. split; [by eauto|by intros [_ ?]].
      * simpl. split; [done|by intros [_ ?]].
    + rewrite (verify_acroform_absent _ _ _ _ Hload Hcat Ha). simpl.
      split; [done|]. by intros [[? ?] _].
  - intros form Hform Hno.
    by destruct (acroform_without_fields _ _ _ _ Hload Hform Hno) as (_ & -> & _).
  - intros xs Hxs Hall.
    assert (Forall (λ x, Spec.well_formed_field pdf x = true) xs) as Hwf.
    { eapply Forall_impl; [exact Hall|]. by intros x [? _]. }
    assert (filter (λ x, Spec.is_signature_field pdf x) xs = []) as Hnone.
    { clear -Hall. induction Hall as [|x xs [_ Hx] _ IH]; [done|].
      rewrite filter_cons, Hx. simpl. exact IH. }
    assert (verify_pdf_signature path w
      = (Ok true,
         emit [ "✓ PDF has AcroForm signature structure";
                "✓ Found " +:+ pretty (length xs) +:+ " signature field(s)" ] w))
      as Hrun.
    { apply verify_pdf_signature_Ok.
      rewrite (try_block_fields _ _ _ _ Hload Hxs), bind_run.
      rewrite (for_each_show_field _ _ _ Hwf). unfold Spec.extract.
      rewrite Hnone. simpl. by rewrite emit_nil. }
    split; [by rewrite Hrun|].
    by rewrite (printed_emit _ _ _ _ Hrun).
Qed.

(** A field that raises after a prefix of well-formed fields: the
    descriptors of the prefix are printed, then the error message. *)
Lemma verify_field_raises path w pdf pre x post cls msg :
  Spec.loads path w pdf →
  Spec.fields pdf = Some (pre ++ x :: post)%list →
  Forall (λ y, Spec.well_formed_field pdf y = true) pre →
  (∀ w0, show_field pdf x w0 = (Raise (Exc cls msg), w0)) →
  verify_pdf_signature path w
  = (Ok false,
     emit ([ "✓ PDF has AcroForm signature structure";
             "✓ Found " +:+ pretty (length (pre ++ x :: post))
               +:+ " signature field(s)" ]
           ++ concat (Spec.render <$> Spec.extract pdf pre)
           ++ ["✗ Error reading PDF: " +:+ msg]) w).
Proof.
  intros Hload Hxs Hwf Hx. unfold verify_pdf_signature, Script.verify_pdf_signature. fold_script.
  erewrite try_except_Exc; last first.
  { rewrite (try_block_fields _ _ _ _ Hload Hxs), bind_run, for_each_app, bind_run.
    rewrite (for_each_show_field _ _ _ Hwf). simpl.
    by rewrite bind_run, Hx. }
  by rewrite on_error_run, !emit_emit.
Qed.

Lemma resolution_revisits_step objs a :
  resolution_revisits objs a →
  ∃ b, refers_to objs a b ∧ resolution_revisits objs b.
Proof.
  intros (c & Hac & Hcc).
  inversion Hac as [|x b z Hab Hbc]; subst.
  - inversion Hcc as [x y Hr|x y z Hr Hyc]; subst.
    + exists c. split; [done|]. exists c. split; [done|by apply tc_once].
    + exists y. split; [done|]. exists c. split; [by apply tc_rtc|done].
  - exists b. split; [done|]. by exists c.
Qed.

(** C10.  Running the function, or the whole script, leaves the file
    system as it was; the only change to the world is that lines are
    added at the end of standard output. *)
Theorem verify_pdf_signature_frame path argv w :
  fs (verify_pdf_signature path w).2 = fs w
  ∧ (∃ out, stdout (verify_pdf_signature path w).2 = (stdout w ++ out)%list)
  ∧ fs (run_script argv w).2 = fs w
  ∧ ∃ out, stdout (run_script argv w).2 = (stdout w ++ out)%list.
Proof.
  destruct (verify_pdf_signature_run path w) as (b & out & Hrun).
  rewrite (Hrun w eq_refl). simpl.
  split; [done|]. split; [by eauto|].
  destruct (argv !! 1) as [p|] eqn:Harg.
  - destruct (verify_pdf_signature_run p w) as (b' & out' & Hrun').
    rewrite (run_script_returns _ _ _ _ _ Harg (Hrun' w eq_refl)). simpl. eauto.
  - apply lookup_ge_None in Harg.
    rewrite run_script_usage by lia. simpl. eauto.
Qed.

End Claims.

(** ** Further behaviour of the script *)

Section Behaviour.
Context `{Environment}.

Lemma get_object_not_reference pdf x o :
  get_object pdf x = Ok o → ∀ n g, o ≠ IndirectObject n g.
Proof.
  destruct x; simpl; intros Hget n' g'; try discriminate;
    try (by injection Hget as <-).
  destruct (objects pdf !! _) as [[]|]; simpl in Hget; try discriminate;
    by injection Hget as <-.
Qed.

Lemma catchable_Raise {A B} e : catchable (@Raise A e) → catchable (@Raise B e).
Proof. intros He code [= ->]. by apply (He code). Qed.

Lemma prints_lift {A} P (r : Result A) : catchable r → prints P (lift r).
Proof.
  intros Hr. exists r, []. split; [done|]. split; [by constructor|].
  intros w. by rewrite emit_nil.
Qed.

Lemma prints_ret {A} P (a : A) : prints P (mret a).
Proof. apply (prints_lift P (Ok a)), catchable_Ok. Qed.

Lemma prints_print (P : string → Prop) s : P s → prints P (py_print s).
Proof.
  intros Hs. exists (Ok ()), [s].
  split; [apply catchable_Ok|]. split; [by repeat constructor|done].
Qed.

Lemma prints_bind {A B} P (m : M A) (k : A → M B) :
  prints P m → (∀ a, prints P (k a)) → prints P (m ≫= k).
Proof.
  intros (r & out & Hr & Hout & Hm) Hk. destruct r as [a|e].
  - destruct (Hk a) as (r' & out' & Hr' & Hout' & Hka).
    exists r', (out ++ out')%list. split; [done|].
    split; [by apply Forall_app|]. intros w.
    by rewrite bind_run, Hm, Hka, emit_emit.
  - exists (Raise e), out. split; [intros code [= ->]; by apply (Hr code)|].
    split; [done|]. intros w. by rewrite bind_run, Hm.
Qed.

Lemma prints_for_each {A} P (xs : list A) (body : A → M unit) :
  (∀ x, prints P (body x)) → prints P (for_each xs body).
Proof.
  intros Hbody. induction xs as [|x xs IH]; simpl.
  - apply prints_ret.
  - apply prints_bind; [apply Hbody|by intros _].
Qed.

#[local] Hint Resolve catchable_get_object catchable_py_getitem catchable_py_in
  catchable_py_get catchable_py_len catchable_py_iter catchable_open_reader : tame.

(** Follow the structure of a computation that prints no failure line. *)
Ltac quiet :=
  repeat match goal with
    | |- prints _ (mret _) => apply prints_ret
    | |- prints _ (py_print _) => apply prints_print; reflexivity
    | |- prints _ (lift _) => apply prints_lift; auto with tame
    | |- prints _ (for_each _ _) => apply prints_for_each; intros ?
    | |- prints _ (_ ≫= _) => apply prints_bind; [|intros ?]
    | |- prints _ (if ?b then _ else _) => destruct b
    end.

Lemma prints_show_fields pdf acroform :
  prints (λ l, is_failure_line l = false) (show_fields pdf acroform).
Proof.
  unfold show_fields, Script.show_fields. fold_script. quiet.
  unfold show_field, Script.show_field. fold_script. quiet.
  unfold print_signature_dictionary, Script.print_signature_dictionary. fold_script. quiet.
Qed.

(** What [check_acroform] prints, by outcome: the one failure line when
    it returns [False]; at least one line and no failure line when it
    returns [True]; no failure line when it raises. *)
Lemma check_acroform_shape pdf :
  ∃ r out, catchable r
    ∧ (∀ w, check_acroform pdf w = (r, emit out w))
    ∧ match r with
      | Ok false => out = ["✗ No signature found in PDF"]
      | Ok true => Forall (λ l, is_failure_line l = false) out ∧ out ≠ []
      | Raise _ => Forall (λ l, is_failure_line l = false) out
      end.
Proof.
  unfold check_acroform, Script.check_acroform. fold_script.
  pose proof (catchable_py_getitem pdf (DictionaryObject (trailer pdf)) "/Root")
    as Hroot. fold (trailer_root pdf) in Hroot.
  destruct (trailer_root pdf) as [root|e].
  2:{ exists (Raise e), []. split; [by eapply catchable_Raise|].
      split; [|by constructor]. intros w. step. by rewrite emit_nil. }
  pose proof (catchable_py_in "/AcroForm" root) as Hin.
  destruct (py_in "/AcroForm" root) as [[|]|e] eqn:Hmem.
  3:{ exists (Raise e), []. split; [by eapply catchable_Raise|].
      split; [|by constructor]. intros w. step. rewrite Hmem. step.
      by rewrite emit_nil. }
  2:{ exists (Ok false), ["✗ No signature found in PDF"].
      split; [done|]. split; [|done]. intros w. step. rewrite Hmem. by step. }
  pose proof (catchable_py_getitem pdf root "/AcroForm") as Hform.
  destruct (py_getitem pdf root "/AcroForm") as [acroform|e] eqn:Hget.
  2:{ exists (Raise e), []. split; [by eapply catchable_Raise|].
      split; [|by constructor]. intros w. step. rewrite Hmem. step.
      rewrite Hget. step. by rewrite emit_nil. }
  destruct (prints_show_fields pdf acroform) as (r & out & Hr & Hout & Hrun).
  destruct r as [[]|e].
  - exists (Ok true), ("✓ PDF has AcroForm signature structure" :: out).
    split; [done|]. split.
    + intros w. step. rewrite Hmem. step. rewrite Hget. step.
      by rewrite bind_run, Hrun, emit_emit.
    + split; [by constructor|done].
  - exists (Raise e), ("✓ PDF has AcroForm signature structure" :: out).
    split; [by eapply catchable_Raise|]. split.
    + intros w. step. rewrite Hmem. step. rewrite Hget. step.
      by rewrite bind_run, Hrun, emit_emit.
    + by constructor.
Qed.

Lemma show_field_unreadable pdf field_ref :
  unreadable_field pdf field_ref →
  ∃ cls msg, ∀ w, show_field pdf field_ref w = (Raise (Exc cls msg), w).
Proof.
  unfold unreadable_field, Spec.resolve_dict, show_field, Script.show_field. fold_script. intros Hbad.
  pose proof (catchable_get_object pdf field_ref) as Hc.
  destruct (get_object pdf field_ref) as [o|[cls msg|code]];
    [|by exists cls, msg|by destruct (Hc code)].
  destruct o; simpl in Hbad;
    try (eexists _, _; intros w; step; reflexivity).
  unfold Spec.field_type in Hbad.
  destruct (d !! "/FT") as [ft|] eqn:Hft; simpl in Hbad.
  - pose proof (catchable_get_object pdf ft) as Hc'.
    destruct (get_object pdf ft) as [v|[cls msg|code]] eqn:Hget;
      [done| |by destruct (Hc' code)].
    exists cls, msg. intros w. step.
    by rewrite (py_getitem_dict _ _ _ _ Hft), Hget.
  - eexists _, _. intros w. step. unfold py_getitem. rewrite Hft. by step.
Qed.

Lemma verify_fields_run path w pdf xs :
  Spec.loads path w pdf →
  Spec.fields pdf = Some xs →
  Forall (λ x, Spec.well_formed_field pdf x = true) xs →
  verify_pdf_signature path w
  = (Ok true,
     emit ([ "✓ PDF has AcroForm signature structure";
             "✓ Found " +:+ pretty (length xs) +:+ " signature field(s)" ]
           ++ concat (Spec.render <$> Spec.extract pdf xs)) w).
Proof.
  intros Hload Hxs Hwf. apply verify_pdf_signature_Ok.
  rewrite (try_block_fields _ _ _ _ Hload Hxs), bind_run.
  by rewrite (for_each_show_field _ _ _ Hwf), emit_emit.
Qed.

Lemma descriptors_printed_other l lines :
  l ≠ "
📝 Signature Details:" →
  Spec.descriptors_printed (l :: lines) = Spec.descriptors_printed lines.
Proof.
  intros Hl. unfold Spec.descriptors_printed.
  by rewrite filter_cons, decide_False.
Qed.

Lemma length_filter_all {A} (P : A → Prop) `{!∀ x, Decision (P x)} (l : list A) :
  length (filter P l) = length l ↔ Forall P l.
Proof.
  induction l as [|x l IH]; [by split; [constructor|]|].
  rewrite filter_cons, Forall_cons. destruct (decide (P x)) as [Hx|Hx]; simpl.
  - rewrite <-IH. split; [intros [= ?]|intros [_ ->]]; done.
  - pose proof (length_filter P l). split; [lia|by intros [? _]].
Qed.

(** A signature field that has no [/V] is shown by its header and its
    name alone, and nothing is raised. *)
Theorem signature_field_without_value pdf field_ref fd v w :
  Spec.resolve_dict pdf field_ref = Some fd →
  Spec.field_type pdf fd = Some v →
  py_eq_str v "/Sig" = true →
  fd !! "/V" = None →
  show_field pdf field_ref w
  = (Ok (),
     emit [ "
📝 Signature Details:";
            "   - Field Name: " +:+ Spec.text_or fd "/T" "Unknown" ] w).
Proof.
  intros Hfd Hft Hv HV.
  rewrite (show_field_signature _ _ fd v) by (rewrite ?HV; done).
  unfold Spec.render, Spec.describe. rewrite Hfd. simpl. by rewrite HV.
Qed.

(** A signature field whose [/V] resolves to anything but a dictionary
    makes the loop body raise [AttributeError], after the header and the
    field name have been printed. *)
Theorem signature_value_not_a_dictionary pdf field_ref fd v sv o w :
  Spec.resolve_dict pdf field_ref = Some fd →
  Spec.field_type pdf fd = Some v →
  py_eq_str v "/Sig" = true →
  fd !! "/V" = Some sv →
  get_object pdf sv = Ok o →
  (∀ d, o ≠ DictionaryObject d) →
  ∃ msg,
    show_field pdf field_ref w
    = (Raise (Exc AttributeError msg),
       emit [ "
📝 Signature Details:";
              "   - Field Name: " +:+ Spec.text_or fd "/T" "Unknown" ] w).
Proof.
  intros Hfd Hft Hv HV Hget Hnot. unfold show_field, Script.show_field. fold_script.
  rewrite (resolve_dict_Some _ _ _ Hfd). step.
  unfold Spec.field_type in Hft.
  destruct (fd !! "/FT") as [ft|] eqn:Hlk; [|done]. simpl in Hft.
  rewrite (py_getitem_dict _ _ _ _ Hlk).
  destruct (get_object pdf ft) as [v'|]; [|done].
  injection Hft as ->. step. rewrite Hv. step.
  rewrite py_get_dict. step. rewrite py_str_default.
  rewrite (py_in_dict_Some _ _ _ HV). step.
  unfold print_signature_dictionary, Script.print_signature_dictionary. fold_script.
  rewrite (py_getitem_dict _ _ _ _ HV), Hget. step.
  pose proof (get_object_not_reference _ _ _ Hget) as Hnoref.
  destruct o; try (exfalso; by eapply Hnot); try (exfalso; by eapply Hnoref);
    simpl; step; eexists; reflexivity.
Qed.

(** The first field the loop cannot read ends the loop: the function
    reports the error and returns [False], and no field after it is
    shown, signature field or not. *)
Theorem unreadable_field_hides_later_fields path w pdf pre x post :
  Spec.loads path w pdf →
  Spec.fields pdf = Some (pre ++ x :: post)%list →
  Forall (λ y, Spec.well_formed_field pdf y = true) pre →
  unreadable_field pdf x →
  (∃ msg,
     verify_pdf_signature path w
     = (Ok false,
        emit ([ "✓ PDF has AcroForm signature structure";
                "✓ Found " +:+ pretty (length (pre ++ x :: post))
                  +:+ " signature field(s)" ]
              ++ concat (Spec.render <$> Spec.extract pdf pre)
              ++ ["✗ Error reading PDF: " +:+ msg]) w))
  ∧ Spec.descriptors_printed (printed (verify_pdf_signature path) w)
    = length (filter (λ y, Spec.is_signature_field pdf y) pre).
Proof.
  intros Hload Hxs Hwf Hbad.
  destruct (show_field_unreadable _ _ Hbad) as (cls & msg & Hx).
  pose proof (verify_field_raises _ _ _ _ _ _ _ _ Hload Hxs Hwf Hx) as Hrun.
  split; [by exists msg|].
  rewrite (printed_emit _ _ _ _ Hrun), !descriptors_printed_app.
  rewrite descriptors_printed_concat. unfold Spec.extract.
  rewrite length_fmap.
  rewrite !descriptors_printed_other by (simpl; discriminate).
  change (Spec.descriptors_printed []) with 0. lia.
Qed.

(** A trailer without [/Root] is reported as the [KeyError] it raises. *)
Theorem missing_root_reported path w pdf :
  Spec.loads path w pdf →
  trailer pdf !! "/Root" = None →
  verify_pdf_signature path w
  = (Ok false, emit ["✗ Error reading PDF: '/Root'"] w).
Proof.
  intros Hload Hroot. unfold verify_pdf_signature, Script.verify_pdf_signature. fold_script.
  erewrite try_except_Exc; [by rewrite on_error_run|].
  rewrite (try_block_loads _ _ _ Hload).
  unfold check_acroform, Script.check_acroform, trailer_root, py_getitem. fold_script. rewrite Hroot. by step.
Qed.

(** When [/AcroForm] resolves to a value that is neither a dictionary,
    an array nor a string, the success line is printed first, then the
    [TypeError] of the membership test is reported, and the function
    returns [False]. *)
Theorem acroform_not_a_container path w pdf cat a o :
  Spec.loads path w pdf →
  Spec.catalog pdf = Some cat →
  cat !! "/AcroForm" = Some a →
  get_object pdf a = Ok o →
  (∀ d, o ≠ DictionaryObject d) →
  (∀ xs, o ≠ ArrayObject xs) →
  as_str o = None →
  verify_pdf_signature path w
  = (Ok false,
     emit [ "✓ PDF has AcroForm signature structure";
            "✗ Error reading PDF: argument of type " +:+ quote (type_name o)
              +:+ " is not iterable" ] w).
Proof.
  intros Hload Hcat Ha Hget Hdict Harr Hstr.
  assert (try_block path w
          = (Raise (Exc TypeError ("argument of type " +:+ quote (type_name o)
                                   +:+ " is not iterable")),
             emit ["✓ PDF has AcroForm signature structure"] w)) as Htry.
  { rewrite (try_block_loads _ _ _ Hload).
    rewrite (check_acroform_present _ _ _ _ Hcat Ha), Hget. step.
    rewrite bind_run. unfold show_fields, Script.show_fields. fold_script.
    destruct o; try done; exfalso; first [by eapply Hdict|by eapply Harr]. }
  unfold verify_pdf_signature, Script.verify_pdf_signature. fold_script.
  by rewrite (try_except_Exc _ _ _ _ _ _ Htry), on_error_run, emit_emit.
Qed.

(** Only the first command-line argument is used: what follows it
    changes nothing. *)
Theorem extra_arguments_ignored script path rest w :
  run_script (script :: path :: rest) w = run_script [script; path] w.
Proof.
  unfold run_script, Script.run_script. fold_script.
  by rewrite (run_script_verify (script :: path :: rest) path w eq_refl),
             (run_script_verify [script; path] path w eq_refl).
Qed.

(** The last [print] call tells the return value: the function always
    makes at least one; it returns [False] exactly when the text of the
    last call starts with the cross mark, and the text of no earlier
    call starts with it.  (A text can span several lines: the header of
    a descriptor starts with a line break, and a printed value may
    contain some.) *)
Theorem last_print_tells_result path w :
  ∃ b out l,
    verify_pdf_signature path w = (Ok b, emit (out ++ [l]) w)
    ∧ Forall (λ l', is_failure_line l' = false) out
    ∧ (b = false ↔ is_failure_line l = true).
Proof.
  assert (∀ msg w0 out,
    Forall (λ l', is_failure_line l' = false) out →
    ∃ b out' l,
      on_error msg (emit out w0) = (Ok b, emit (out' ++ [l]) w0)
      ∧ Forall (λ l', is_failure_line l' = false) out'
      ∧ (b = false ↔ is_failure_line l = true)) as Herr.
  { intros msg w0 out Hout.
    exists false, out, ("✗ Error reading PDF: " +:+ msg).
    by rewrite on_error_run, emit_emit. }
  assert (∀ msg,
    ∃ b out' l,
      on_error msg w = (Ok b, emit (out' ++ [l]) w)
      ∧ Forall (λ l', is_failure_line l' = false) out'
      ∧ (b = false ↔ is_failure_line l = true)) as Herr0.
  { intros msg. specialize (Herr msg w [] (List.Forall_nil _)).
    by rewrite emit_nil in Herr. }
  unfold verify_pdf_signature, Script.verify_pdf_signature, try_except, try_block, Script.try_block. fold_script.
  rewrite bind_run. unfold py_open_rb.
  destruct (fs w !! path) as [[[] content|]|]; simpl.
  2-4: by apply Herr0.
  unfold open_reader. destruct (PdfReader content) as [[cls msg]|pdf].
  { step. by apply Herr0. }
  step.
  destruct (check_acroform_shape pdf) as (r & out & Hr & Hrun & Hshape).
  rewrite Hrun. destruct r as [[]|[cls msg|code]].
  - destruct Hshape as [Hquiet Hne].
    destruct out as [|l out _] using rev_ind; [done|].
    apply Forall_app in Hquiet as [Hout Hl].
    rewrite Forall_singleton in Hl.
    exists true, out, l. split; [done|]. split; [done|].
    split; [done|congruence].
  - subst out. by exists false, [], "✗ No signature found in PDF".
  - by apply Herr.
  - by destruct (Hr code).
Qed.

(** The count in the line "Found N signature field(s)" is the length of
    [/Fields], whatever the fields are: the number of descriptors that
    follow is at most N, and equals N only when every field is a
    signature field. *)
Theorem announced_count_bounds_descriptors path w pdf xs :
  Spec.loads path w pdf →
  Spec.fields pdf = Some xs →
  Forall (λ x, Spec.well_formed_field pdf x = true) xs →
  printed (verify_pdf_signature path) w !! 1
  = Some ("✓ Found " +:+ pretty (length xs) +:+ " signature field(s)")
  ∧ (Spec.descriptors_printed (printed (verify_pdf_signature path) w)
     ≤ length xs)%nat
  ∧ (Spec.descriptors_printed (printed (verify_pdf_signature path) w) = length xs
     ↔ Forall (λ x, Spec.is_signature_field pdf x = true) xs).
Proof.
  intros Hload Hxs Hwf.
  rewrite (printed_emit _ _ _ _ (verify_fields_run _ _ _ _ Hload Hxs Hwf)).
  split; [done|].
  rewrite descriptors_printed_app, descriptors_printed_concat.
  unfold Spec.extract. rewrite length_fmap.
  rewrite !descriptors_printed_other by (simpl; discriminate).
  change (Spec.descriptors_printed []) with 0. cbn [Nat.add].
  split; [apply length_filter|].
  rewrite length_filter_all. apply Forall_proper; [|done].
  intros x. apply Is_true_true.
Qed.

End Behaviour.

(** ** Fields of the form, and stored references *)

Section Corrections.
Context `{Environment}.







(** C6, as the script has it.  The script keeps no set of visited
    references and knows no [CycleDetected] error: it hands each field
    reference to the library's [get_object].  When the resolution path
    of a field reference revisits an object, the reference is stored as
    a bare reference, and resolving it does not loop: the library fails
    at once with the [AttributeError] of the assignment it attempts,
    which [verify_pdf_signature] catches, reports after the descriptors
    already printed, and turns into [False]. *)
Theorem cyclic_reference_fails_at_once path w pdf pre n g post :
  Spec.loads path w pdf →
  Spec.fields pdf = Some (pre ++ IndirectObject n g :: post)%list →
  Forall (λ y, Spec.well_formed_field pdf y = true) pre →
  resolution_revisits (objects pdf) (n, g) →
  get_object pdf (IndirectObject n g) = Raise (Exc AttributeError setter_error)
  ∧ verify_pdf_signature path w
    = (Ok false,
       emit ([ "✓ PDF has AcroForm signature structure";
               "✓ Found "
                 +:+ pretty (length (pre ++ IndirectObject n g :: post))
                 +:+ " signature field(s)" ]
             ++ concat (Spec.render <$> Spec.extract pdf pre)
             ++ ["✗ Error reading PDF: " +:+ setter_error]) w).
Proof.
  intros Hload Hxs Hwf Hrev.
  destruct (resolution_revisits_step _ _ Hrev) as (b & Hab & _).
  assert (get_object pdf (IndirectObject n g)
          = Raise (Exc AttributeError setter_error)) as Hget.
  { unfold refers_to in Hab. simpl in *. by rewrite Hab. }
  split; [exact Hget|].
  apply (verify_field_raises _ _ _ _ _ _ AttributeError _ Hload Hxs Hwf).
  intros w0. unfold show_field, Script.show_field. fold_script.
  rewrite Hget. by step.
Qed.

End Corrections.

(** ** The script on an arbitrary console *)

Section Consoles.
Variable console : Console.
Context `{Environment}.

Lemma bind_print_on {B} s (k : unit → M B) w :
  (Script.py_print console s ≫= k) w
  = match encode_error console s with
    | None => k () (emit [s] w)
    | Some msg => (Raise (Exc UnicodeEncodeError msg), w)
    end.
Proof.
  rewrite bind_run. unfold Script.py_print.
  by destruct (encode_error console s).
Qed.

Lemma tame_print_on s : tame (Script.py_print console s).
Proof.
  unfold Script.py_print. destruct (encode_error console s) as [msg|].
  - exists (Raise (Exc UnicodeEncodeError msg)), []. split; [done|].
    intros w. by rewrite emit_nil.
  - exists (Ok ()), [s]. by split.
Qed.

#[local] Hint Resolve catchable_get_object catchable_py_getitem catchable_py_in
  catchable_py_get catchable_py_len catchable_py_iter catchable_open_reader : tame.

Ltac tame_on :=
  repeat match goal with
    | |- tame (mret _) => apply tame_ret
    | |- tame (Script.py_print _ _) => apply tame_print_on
    | |- tame (lift _) => apply tame_lift; auto with tame
    | |- tame (for_each _ _) => apply tame_for_each; intros ?
    | |- tame (_ ≫= _) => apply tame_bind; [|intros ?]
    | |- tame (if ?b then _ else _) => destruct b
    end.

Lemma tame_show_fields_on pdf acroform :
  tame (Script.show_fields console pdf acroform).
Proof.
  unfold Script.show_fields. tame_on.
  unfold Script.show_field. tame_on.
  unfold Script.print_signature_dictionary. tame_on.
Qed.

Lemma tame_check_acroform_on pdf : tame (Script.check_acroform console pdf).
Proof.
  unfold Script.check_acroform, trailer_root. tame_on.
  apply tame_show_fields_on.
Qed.

(** The [try] block raises nothing but exceptions below [Exception]. *)
Lemma try_block_catchable path w : catchable (Script.try_block console path w).1.
Proof.
  unfold Script.try_block. rewrite bind_run. unfold py_open_rb.
  destruct (fs w !! path) as [[[] content|]|]; simpl;
    [|by intros code..].
  assert (tame (lift (open_reader content) ≫= Script.check_acroform console))
    as (r & out & Hr & Hrun).
  { tame_on. apply tame_check_acroform_on. }
  by rewrite Hrun.
Qed.

Lemma on_error_on msg w :
  Script.on_error console msg w
  = match encode_error console ("✗ Error reading PDF: " +:+ msg) with
    | None => (Ok false, emit ["✗ Error reading PDF: " +:+ msg] w)
    | Some msg' => (Raise (Exc UnicodeEncodeError msg'), w)
    end.
Proof.
  unfold Script.on_error. rewrite bind_print_on.
  by destruct (encode_error console _).
Qed.

(** What the function does with each outcome of its [try] block. *)
Lemma verify_on_console path w :
  match Script.try_block console path w with
  | (Ok b, w') => Script.verify_pdf_signature console path w = (Ok b, w')
  | (Raise (Exc _ msg), w') =>
      Script.verify_pdf_signature console path w
      = match encode_error console ("✗ Error reading PDF: " +:+ msg) with
        | None => (Ok false, emit ["✗ Error reading PDF: " +:+ msg] w')
        | Some msg' => (Raise (Exc UnicodeEncodeError msg'), w')
        end
  | (Raise (SystemExit _), _) => False
  end.
Proof.
  pose proof (try_block_catchable path w) as Hc.
  unfold Script.verify_pdf_signature, try_except.
  destruct (Script.try_block console path w) as [[b|[cls msg|code]] w'];
    [done|apply on_error_on|by destruct (Hc code)].
Qed.

Lemma main_on_console argv path w :
  argv !! 1 = Some path →
  Script.main console argv w
  = (Script.verify_pdf_signature console path;; mret ()) w.
Proof.
  intros Harg. unfold Script.main.
  rewrite bind_run, bool_decide_eq_false_2.
  - by rewrite Harg.
  - apply lookup_lt_Some in Harg. lia.
Qed.

Lemma run_script_on_console argv path w :
  argv !! 1 = Some path →
  Script.run_script console argv w
  = match Script.verify_pdf_signature console path w with
    | (Ok _, w') => (0%Z, w')
    | (Raise e, w') => (exit_status (Raise e), w')
    end.
Proof.
  intros Harg. unfold Script.run_script.
  rewrite (main_on_console _ _ _ Harg), bind_run.
  by destruct (Script.verify_pdf_signature console path w) as [[b|e] w'].
Qed.

(** On a console without the marks, the first text the [try] block
    prints is refused: the block raises with nothing printed. *)
Lemma try_block_lacks_marks path w :
  lacks_marks console →
  ∃ cls msg, Script.try_block console path w = (Raise (Exc cls msg), w).
Proof.
  intros Hmarks.
  assert (∀ (r : Result bool), catchable r → (∀ b, r ≠ Ok b) →
          ∃ cls msg, (r, w) = (Raise (Exc cls msg), w)) as Hraise.
  { intros [b|[cls msg|code]] Hr Hno; [by destruct (Hno b)|by eauto|
      by destruct (Hr code)]. }
  unfold Script.try_block. rewrite bind_run. unfold py_open_rb.
  destruct (fs w !! path) as [[[] content|]|]; simpl; [|by eauto..].
  pose proof (catchable_open_reader content) as Hopen.
  destruct (open_reader content) as [pdf|e]; step;
    [|by apply Hraise; [eapply catchable_Raise|]].
  unfold Script.check_acroform.
  pose proof (catchable_py_getitem pdf (DictionaryObject (trailer pdf)) "/Root")
    as Hroot. fold (trailer_root pdf) in Hroot.
  destruct (trailer_root pdf) as [root|e]; step;
    [|by apply Hraise; [eapply catchable_Raise|]].
  pose proof (catchable_py_in "/AcroForm" root) as Hin.
  destruct (py_in "/AcroForm" root) as [[|]|e]; step;
    [| |by apply Hraise; [eapply catchable_Raise|]].
  - pose proof (catchable_py_getitem pdf root "/AcroForm") as Hform.
    destruct (py_getitem pdf root "/AcroForm") as [acroform|e]; step;
      [|by apply Hraise; [eapply catchable_Raise|]].
    rewrite bind_print_on.
    destruct (Hmarks " PDF has AcroForm signature structure") as [Hcheck _].
    destruct (encode_error console _) as [msg|]; [by eauto|done].
  - rewrite bind_print_on.
    destruct (Hmarks " No signature found in PDF") as [_ Hcross].
    destruct (encode_error console _) as [msg|]; [by eauto|done].
Qed.

(** C9, as the script has it.  Whatever the [try] block raises is below
    [Exception] and is caught.  When the handler's [print] of the error
    message succeeds, the failure is reported and becomes the return
    value [False]: so it is for a file that cannot be opened, a file the
    parser rejects, and a field without [/FT], and on a console that can
    encode every text the function returns a boolean for every path and
    every world.  The handler's [print] is itself outside the [try]:
    when the console cannot encode the error line, the
    [UnicodeEncodeError] of that [print] goes to the caller. *)
Theorem verify_pdf_signature_catches path w :
  match Script.try_block console path w with
  | (Ok b, w') => Script.verify_pdf_signature console path w = (Ok b, w')
  | (Raise (Exc _ msg), w') =>
      match encode_error console ("✗ Error reading PDF: " +:+ msg) with
      | None =>
          Script.verify_pdf_signature console path w
          = (Ok false, emit ["✗ Error reading PDF: " +:+ msg] w')
      | Some msg' =>
          Script.verify_pdf_signature console path w
          = (Raise (Exc UnicodeEncodeError msg'), w')
      end
  | (Raise (SystemExit _), _) => False
  end
  ∧ ((∀ s, encode_error console s = None) →
     ∃ b w', Script.verify_pdf_signature console path w = (Ok b, w'))
  ∧ ((∀ content, fs w !! path ≠ Some (RegularFile true content)) →
     ∃ msg, verify_pdf_signature path w
            = (Ok false, emit ["✗ Error reading PDF: " +:+ msg] w))
  ∧ (∀ content cls msg,
       fs w !! path = Some (RegularFile true content) →
       PdfReader content = inl (cls, msg) →
       verify_pdf_signature path w
       = (Ok false, emit ["✗ Error reading PDF: " +:+ msg] w))
  ∧ (∀ pdf pre x fd post,
       Spec.loads path w pdf →
       Spec.fields pdf = Some (pre ++ x :: post)%list →
       Forall (λ y, Spec.well_formed_field pdf y = true) pre →
       Spec.resolve_dict pdf x = Some fd →
       fd !! "/FT" = None →
       verify_pdf_signature path w
       = (Ok false,
          emit ([ "✓ PDF has AcroForm signature structure";
                  "✓ Found " +:+ pretty (length (pre ++ x :: post))
                    +:+ " signature field(s)" ]
                ++ concat (Spec.render <$> Spec.extract pdf pre)
                ++ ["✗ Error reading PDF: '/FT'"]) w)).
Proof.
  pose proof (verify_on_console path w) as Hcases.
  split; [|split; [|split; [|split]]].
  - destruct (Script.try_block console path w) as [[b|[cls msg|code]] w'];
      [done| |done].
    by destruct (encode_error console _).
  - intros Hall.
    destruct (Script.try_block console path w) as [[b|[cls msg|code]] w'];
      [by eauto| |done].
    rewrite Hall in Hcases. by eauto.
  - intros Hbad.
    unfold verify_pdf_signature, Script.verify_pdf_signature, try_except,
      Script.try_block.
    fold_script. rewrite bind_run. unfold py_open_rb.
    destruct (fs w !! path) as [[[] content|]|] eqn:Hnode; simpl;
      [by destruct (Hbad content)|eexists; by rewrite on_error_run..].
  - intros content cls msg Hnode Hparse.
    unfold verify_pdf_signature, Script.verify_pdf_signature, try_except,
      Script.try_block.
    fold_script. rewrite bind_run. unfold py_open_rb. rewrite Hnode.
    unfold open_reader. rewrite Hparse. by step.
  - intros pdf pre x fd post Hload Hxs Hwf Hfd Hft.
    apply (verify_field_raises _ _ _ _ _ _ KeyError _ Hload Hxs Hwf).
    intros w0. unfold show_field, Script.show_field. fold_script.
    rewrite (resolve_dict_Some _ _ _ Hfd). step.
    unfold py_getitem. rewrite Hft. by step.
Qed.

(** C1, as the script has it.  With fewer than one argument the script
    exits with status 1.  With an argument, the exit status does not
    tell whether the file could be read: on a console that can encode
    every text it is 0 in every case, a failure being reported by the
    line "Error reading PDF: ..." and by nothing else; on a console
    that cannot encode the script's check and cross marks it is 1 in
    every case, with nothing printed. *)
Theorem exit_status_on_console argv w :
  (length argv < 2 → (Script.run_script console argv w).1 = 1%Z)
  ∧ (length argv < 2 →
     encode_error console "Usage: python verify_signature.py <pdf_file>" = None →
     Script.run_script console argv w
     = (1%Z, emit ["Usage: python verify_signature.py <pdf_file>"] w))
  ∧ (∀ path,
       argv !! 1 = Some path →
       (∀ s, encode_error console s = None) →
       (Script.run_script console argv w).1 = 0%Z
       ∧ ∀ cls msg w',
           Script.try_block console path w = (Raise (Exc cls msg), w') →
           Script.run_script console argv w
           = (0%Z, emit ["✗ Error reading PDF: " +:+ msg] w'))
  ∧ (∀ path,
       argv !! 1 = Some path →
       lacks_marks console →
       Script.run_script console argv w = (1%Z, w)).
Proof.
  split; [|split; [|split]].
  - intros Hlen. unfold Script.run_script, Script.main.
    rewrite bind_run, bool_decide_eq_true_2, bind_print_on by done.
    by destruct (encode_error console _).
  - intros Hlen Husage. unfold Script.run_script, Script.main.
    rewrite bind_run, bool_decide_eq_true_2, bind_print_on by done.
    by rewrite Husage.
  - intros path Harg Hall. rewrite (run_script_on_console _ _ _ Harg).
    pose proof (verify_on_console path w) as Hcases.
    destruct (Script.try_block console path w) as [[b|[cls msg|code]] w'];
      [|rewrite Hall in Hcases|done]; rewrite Hcases; simpl.
    + split; [done|]. by intros cls msg w''.
    + split; [done|]. by intros cls' msg' w'' [= _ <- <-].
  - intros path Harg Hmarks. rewrite (run_script_on_console _ _ _ Harg).
    pose proof (verify_on_console path w) as Hcases.
    destruct (try_block_lacks_marks path w Hmarks) as (cls & msg & Htry).
    rewrite Htry in Hcases.
    destruct (Hmarks (" Error reading PDF: " +:+ msg)) as [_ Hcross].
    change ("✗" +:+ " Error reading PDF: " +:+ msg)
      with ("✗ Error reading PDF: " +:+ msg) in Hcross.
    destruct (encode_error console _) as [msg'|]; [|done].
    by rewrite Hcases.
Qed.

End Consoles.

(** ** Two runs on the same bytes *)

Section Reruns.
Context (E : Environment) (address : Z) (rendering : PyValue → string).










End Reruns.


(** ** The claims on the sample documents *)

Import Samples.

Lemma no_acroform_is_unsigned_witness :
  @Spec.loads (env unsigned_pdf) "doc.pdf" world unsigned_pdf
  ∧ @Spec.catalog (env unsigned_pdf) unsigned_pdf = Some plain_catalog
  ∧ plain_catalog !! "/AcroForm" = None
  ∧ @try_block (env unsigned_pdf) "doc.pdf" world
    = (Ok false, emit ["✗ No signature found in PDF"] world)
  ∧ @verify_pdf_signature (env unsigned_pdf) "doc.pdf" world
    = (Ok false, emit ["✗ No signature found in PDF"] world)
  ∧ Spec.descriptors_printed
      (printed (@verify_pdf_signature (env unsigned_pdf) "doc.pdf") world) = 0
  ∧ ∀ script,
      (@run_script (env unsigned_pdf) [script; "doc.pdf"] world).1 = 0%Z.
Proof.
  assert (@Spec.loads (env unsigned_pdf) "doc.pdf" world unsigned_pdf) as Hload.
  { exists some_bytes. split; reflexivity. }
  assert (@Spec.catalog (env unsigned_pdf) unsigned_pdf = Some plain_catalog)
    as Hcat by reflexivity.
  assert (plain_catalog !! "/AcroForm" = None) as Hno by reflexivity.
  split; [exact Hload|]. split; [exact Hcat|]. split; [exact Hno|].
  exact (@no_acroform_is_unsigned (env unsigned_pdf) "doc.pdf" world
           unsigned_pdf plain_catalog Hload Hcat Hno).
Defined.

Lemma acroform_without_fields_witness :
  @Spec.loads (env no_fields_pdf) "doc.pdf" world no_fields_pdf
  ∧ @Spec.acroform (env no_fields_pdf) no_fields_pdf = Some bare_form
  ∧ bare_form !! "/Fields" = None
  ∧ @try_block (env no_fields_pdf) "doc.pdf" world
    = (Ok true, emit ["✓ PDF has AcroForm signature structure"] world)
  ∧ @verify_pdf_signature (env no_fields_pdf) "doc.pdf" world
    = (Ok true, emit ["✓ PDF has AcroForm signature structure"] world)
  ∧ Spec.descriptors_printed
      (printed (@verify_pdf_signature (env no_fields_pdf) "doc.pdf") world) = 0.
Proof.
  assert (@Spec.loads (env no_fields_pdf) "doc.pdf" world no_fields_pdf) as Hload.
  { exists some_bytes. split; reflexivity. }
  assert (@Spec.acroform (env no_fields_pdf) no_fields_pdf = Some bare_form)
    as Hform by reflexivity.
  assert (bare_form !! "/Fields" = None) as Hno by reflexivity.
  split; [exact Hload|]. split; [exact Hform|]. split; [exact Hno|].
  exact (@acroform_without_fields (env no_fields_pdf) "doc.pdf" world
           no_fields_pdf bare_form Hload Hform Hno).
Defined.

(** Two signature fields [A] and [B] around a text field: the
    descriptors come out as [A], [B]. *)
Lemma descriptors_in_array_order_witness :
  @Spec.loads (env signed_pdf) "doc.pdf" world signed_pdf
  ∧ @Spec.fields (env signed_pdf) signed_pdf = Some signed_fields
  ∧ Forall (λ x, @Spec.well_formed_field (env signed_pdf) signed_pdf x = true) signed_fields
  ∧ Spec.fieldName <$> @Spec.extract (env signed_pdf) signed_pdf signed_fields = ["A"; "B"]
  ∧ @verify_pdf_signature (env signed_pdf) "doc.pdf" world
    = (Ok true,
       emit ([ "✓ PDF has AcroForm signature structure";
               "✓ Found 3 signature field(s)" ]
             ++ concat (Spec.render
                          <$> @Spec.extract (env signed_pdf) signed_pdf signed_fields))
            world)
  ∧ Spec.descriptors_printed
      (printed (@verify_pdf_signature (env signed_pdf) "doc.pdf") world) = 2.
Proof.
  assert (@Spec.loads (env signed_pdf) "doc.pdf" world signed_pdf) as Hload.
  { exists some_bytes. split; reflexivity. }
  assert (@Spec.fields (env signed_pdf) signed_pdf = Some signed_fields)
    as Hxs by reflexivity.
  assert (Forall (λ x, @Spec.well_formed_field (env signed_pdf) signed_pdf x
                       = true) signed_fields) as Hwf.
  { repeat constructor. }
  split; [exact Hload|]. split; [exact Hxs|]. split; [exact Hwf|].
  split; [reflexivity|].
  exact (@descriptors_in_array_order (env signed_pdf) "doc.pdf" world
           signed_pdf signed_fields Hload Hxs Hwf).
Defined.

(** A form without [/Fields] and a form with a text field only: [True]
    in both cases, and no descriptor. *)
Lemma returns_true_iff_acroform_witness :
  @Spec.loads (env text_only_pdf) "doc.pdf" world text_only_pdf
  ∧ @Spec.catalog (env text_only_pdf) text_only_pdf = Some form_catalog
  ∧ ((@verify_pdf_signature (env text_only_pdf) "doc.pdf" world).1 = Ok true
     ↔ is_Some (form_catalog !! "/AcroForm")
       ∧ is_Ok (@try_block (env text_only_pdf) "doc.pdf" world).1 = true)
  ∧ (@verify_pdf_signature (env text_only_pdf) "doc.pdf" world).1 = Ok true
  ∧ Spec.descriptors_printed
      (printed (@verify_pdf_signature (env text_only_pdf) "doc.pdf") world) = 0.
Proof.
  assert (@Spec.loads (env text_only_pdf) "doc.pdf" world text_only_pdf) as Hload.
  { exists some_bytes. split; reflexivity. }
  assert (@Spec.catalog (env text_only_pdf) text_only_pdf = Some form_catalog)
    as Hcat by reflexivity.
  destruct (@returns_true_iff_acroform (env text_only_pdf) "doc.pdf" world
              text_only_pdf form_catalog Hload Hcat) as (Hiff & _ & Hnone).
  split; [exact Hload|]. split; [exact Hcat|]. split; [exact Hiff|].
  apply (Hnone [IndirectObject 4 0]); [reflexivity|].
  repeat constructor.
Defined.

(** C1 fails as stated: a missing file and a file the parser rejects are
    both reported on standard output, and the script exits with status 0. *)
Lemma unreadable_file_exits_zero :
  fs world !! "missing.pdf" = None
  ∧ @run_script (env signed_pdf) ["verify_signature.py"; "missing.pdf"] world
    = (0%Z,
       emit [ "✗ Error reading PDF: [Errno 2] No such file or directory: 'missing.pdf'" ]
            world)
  ∧ @open_reader (env signed_pdf) []
    = Raise (Exc (LibraryError "EmptyFileError") "Cannot read an empty file")
  ∧ @run_script (env signed_pdf) ["verify_signature.py"; "doc.pdf"]
      empty_file_world
    = (0%Z, emit ["✗ Error reading PDF: Cannot read an empty file"] empty_file_world)
  ∧ ¬ ((@run_script (env signed_pdf) ["verify_signature.py"; "missing.pdf"]
          world).1 ≠ 0%Z).
Proof.
  split; [reflexivity|]. split; [by vm_compute|]. split; [reflexivity|].
  split; [by vm_compute|]. intros Hne. apply Hne. by vm_compute.
Qed.

(** ** Further behaviour on the sample documents *)

Lemma signature_field_without_value_witness :
  @Spec.resolve_dict (env blank_pdf) blank_pdf (IndirectObject 3 0)
  = Some blank_signature_field
  ∧ @Spec.field_type (env blank_pdf) blank_pdf blank_signature_field
    = Some (NameObject "/Sig")
  ∧ blank_signature_field !! "/V" = None
  ∧ @show_field (env blank_pdf) blank_pdf (IndirectObject 3 0) world
    = (Ok (),
       emit [ "
📝 Signature Details:";
              "   - Field Name: Blank" ] world).
Proof.
  split; [reflexivity|]. split; [reflexivity|]. split; [reflexivity|].
  exact (@signature_field_without_value (env blank_pdf) blank_pdf
           (IndirectObject 3 0) blank_signature_field (NameObject "/Sig") world
           eq_refl eq_refl eq_refl eq_refl).
Defined.

Lemma signature_value_not_a_dictionary_witness :
  @Spec.resolve_dict (env odd_value_pdf) odd_value_pdf (IndirectObject 3 0)
  = Some (signature_field "Odd" (NumberObject 5))
  ∧ @get_object (env odd_value_pdf) odd_value_pdf (NumberObject 5)
    = Ok (NumberObject 5)
  ∧ ∃ msg,
      @show_field (env odd_value_pdf) odd_value_pdf (IndirectObject 3 0) world
      = (Raise (Exc AttributeError msg),
         emit [ "
📝 Signature Details:";
                "   - Field Name: Odd" ] world).
Proof.
  split; [reflexivity|]. split; [reflexivity|].
  exact (@signature_value_not_a_dictionary (env odd_value_pdf) odd_value_pdf
           (IndirectObject 3 0) (signature_field "Odd" (NumberObject 5))
           (NameObject "/Sig") (NumberObject 5) (NumberObject 5) world
           eq_refl eq_refl eq_refl eq_refl eq_refl
           ltac:(intros d; discriminate)).
Defined.

(** The signature field [A] stands after a field without [/FT]: it is
    not shown. *)
Lemma unreadable_field_hides_later_fields_witness :
  @Spec.loads (env hidden_signature_pdf) "doc.pdf" world hidden_signature_pdf
  ∧ @Spec.fields (env hidden_signature_pdf) hidden_signature_pdf
    = Some ([] ++ IndirectObject 8 0 :: [IndirectObject 3 0])%list
  ∧ @unreadable_field (env hidden_signature_pdf) hidden_signature_pdf
      (IndirectObject 8 0)
  ∧ @Spec.is_signature_field (env hidden_signature_pdf) hidden_signature_pdf
      (IndirectObject 3 0) = true
  ∧ (∃ msg,
       @verify_pdf_signature (env hidden_signature_pdf) "doc.pdf" world
       = (Ok false,
          emit [ "✓ PDF has AcroForm signature structure";
                 "✓ Found 2 signature field(s)";
                 "✗ Error reading PDF: " +:+ msg ] world))
  ∧ Spec.descriptors_printed
      (printed (@verify_pdf_signature (env hidden_signature_pdf) "doc.pdf")
         world) = 0.
Proof.
  assert (@Spec.loads (env hidden_signature_pdf) "doc.pdf" world
            hidden_signature_pdf) as Hload.
  { exists some_bytes. split; reflexivity. }
  split; [exact Hload|]. split; [reflexivity|]. split; [reflexivity|].
  split; [reflexivity|].
  exact (@unreadable_field_hides_later_fields (env hidden_signature_pdf)
           "doc.pdf" world hidden_signature_pdf [] (IndirectObject 8 0)
           [IndirectObject 3 0] Hload eq_refl (List.Forall_nil _) eq_refl).
Defined.

Lemma missing_root_reported_witness :
  @Spec.loads (env rootless_pdf) "doc.pdf" world rootless_pdf
  ∧ trailer rootless_pdf !! "/Root" = None
  ∧ @verify_pdf_signature (env rootless_pdf) "doc.pdf" world
    = (Ok false, emit ["✗ Error reading PDF: '/Root'"] world).
Proof.
  assert (@Spec.loads (env rootless_pdf) "doc.pdf" world rootless_pdf) as Hload.
  { exists some_bytes. split; reflexivity. }
  split; [exact Hload|]. split; [reflexivity|].
  exact (@missing_root_reported (env rootless_pdf) "doc.pdf" world rootless_pdf
           Hload eq_refl).
Defined.

Lemma acroform_not_a_container_witness :
  @Spec.loads (env scalar_form_pdf) "doc.pdf" world scalar_form_pdf
  ∧ @Spec.catalog (env scalar_form_pdf) scalar_form_pdf = Some scalar_form_catalog
  ∧ scalar_form_catalog !! "/AcroForm" = Some (NumberObject 1)
  ∧ as_str (NumberObject 1) = None
  ∧ @verify_pdf_signature (env scalar_form_pdf) "doc.pdf" world
    = (Ok false,
       emit [ "✓ PDF has AcroForm signature structure";
              "✗ Error reading PDF: argument of type 'NumberObject' is not iterable" ]
            world).
Proof.
  assert (@Spec.loads (env scalar_form_pdf) "doc.pdf" world scalar_form_pdf)
    as Hload.
  { exists some_bytes. split; reflexivity. }
  split; [exact Hload|]. split; [reflexivity|]. split; [reflexivity|].
  split; [reflexivity|].
  exact (@acroform_not_a_container (env scalar_form_pdf) "doc.pdf" world
           scalar_form_pdf scalar_form_catalog (NumberObject 1) (NumberObject 1)
           Hload eq_refl eq_refl eq_refl
           ltac:(intros d; discriminate) ltac:(intros xs; discriminate) eq_refl).
Defined.

(** Three fields are announced on the sample form, two descriptors follow. *)
Lemma announced_count_bounds_descriptors_witness :
  @Spec.loads (env signed_pdf) "doc.pdf" world signed_pdf
  ∧ @Spec.fields (env signed_pdf) signed_pdf = Some signed_fields
  ∧ Forall (λ x, @Spec.well_formed_field (env signed_pdf) signed_pdf x = true)
      signed_fields
  ∧ printed (@verify_pdf_signature (env signed_pdf) "doc.pdf") world !! 1
    = Some "✓ Found 3 signature field(s)"
  ∧ (Spec.descriptors_printed
       (printed (@verify_pdf_signature (env signed_pdf) "doc.pdf") world)
     ≤ 3)%nat.
Proof.
  assert (@Spec.loads (env signed_pdf) "doc.pdf" world signed_pdf) as Hload.
  { exists some_bytes. split; reflexivity. }
  assert (Forall (λ x, @Spec.well_formed_field (env signed_pdf) signed_pdf x
                       = true) signed_fields) as Hwf.
  { repeat constructor. }
  destruct (@announced_count_bounds_descriptors (env signed_pdf) "doc.pdf" world
              signed_pdf signed_fields Hload eq_refl Hwf) as (Hline & Hle & _).
  split; [exact Hload|]. split; [reflexivity|]. split; [exact Hwf|].
  split; [exact Hline|exact Hle].
Defined.

(** ** The corrected claims on the sample documents *)



(** C5 fails as stated: the signature field [A] is listed in [/Fields]
    after a field without [/FT], and no descriptor is printed for it. *)
Lemma hidden_signature_not_described :
  @Spec.fields (env hidden_signature_pdf) hidden_signature_pdf
  = Some [IndirectObject 8 0; IndirectObject 3 0]
  ∧ length (filter (λ x, @Spec.is_signature_field (env hidden_signature_pdf)
                           hidden_signature_pdf x)
              [IndirectObject 8 0; IndirectObject 3 0]) = 1
  ∧ Spec.descriptors_printed
      (printed (@verify_pdf_signature (env hidden_signature_pdf) "doc.pdf")
         world) = 0
  ∧ @verify_pdf_signature (env hidden_signature_pdf) "doc.pdf" world
    = (Ok false,
       emit [ "✓ PDF has AcroForm signature structure";
              "✓ Found 2 signature field(s)";
              "✗ Error reading PDF: '/FT'" ] world).
Proof.
  split; [reflexivity|]. split; [reflexivity|]. split; by vm_compute.
Qed.

(** C6 fails as stated: on a document whose only field is stored as a
    reference to itself, resolution fails with the library's
    [AttributeError], not with an error named [CycleDetected]; and this
    has nothing to do with the cycle, since a reference stored as a
    reference to a dictionary fails in the same way. *)
Lemma cycle_not_detected :
  resolution_revisits (objects cyclic_pdf) (7, 0)
  ∧ @get_object (env cyclic_pdf) cyclic_pdf (IndirectObject 7 0)
    = Raise (Exc AttributeError (@setter_error (env cyclic_pdf)))
  ∧ (∀ msg, @get_object (env cyclic_pdf) cyclic_pdf (IndirectObject 7 0)
            ≠ Raise (Exc (LibraryError "CycleDetected") msg))
  ∧ @verify_pdf_signature (env cyclic_pdf) "doc.pdf" world
    = (Ok false,
       emit [ "✓ PDF has AcroForm signature structure";
              "✓ Found 1 signature field(s)";
              "✗ Error reading PDF: " +:+ @setter_error (env cyclic_pdf) ] world)
  ∧ objects chained_pdf !! (7, 0) = Some (IndirectObject 8 0)
  ∧ objects chained_pdf !! (8, 0) = Some (DictionaryObject text_field)
  ∧ @get_object (env chained_pdf) chained_pdf (IndirectObject 7 0)
    = Raise (Exc AttributeError (@setter_error (env chained_pdf))).
Proof.
  split.
  { exists (7, 0). split; [apply rtc_refl|]. apply tc_once. reflexivity. }
  split; [by vm_compute|]. split; [intros msg; by vm_compute|].
  split; [by vm_compute|]. split; [reflexivity|]. split; [reflexivity|].
  by vm_compute.
Qed.

Lemma cyclic_reference_fails_at_once_witness :
  @Spec.loads (env cyclic_pdf) "doc.pdf" world cyclic_pdf
  ∧ @Spec.fields (env cyclic_pdf) cyclic_pdf
    = Some ([] ++ IndirectObject 7 0 :: [])%list
  ∧ resolution_revisits (objects cyclic_pdf) (7, 0)
  ∧ @get_object (env cyclic_pdf) cyclic_pdf (IndirectObject 7 0)
    = Raise (Exc AttributeError (@setter_error (env cyclic_pdf)))
  ∧ @verify_pdf_signature (env cyclic_pdf) "doc.pdf" world
    = (Ok false,
       emit [ "✓ PDF has AcroForm signature structure";
              "✓ Found 1 signature field(s)";
              "✗ Error reading PDF: " +:+ @setter_error (env cyclic_pdf) ] world).
Proof.
  assert (@Spec.loads (env cyclic_pdf) "doc.pdf" world cyclic_pdf) as Hload.
  { exists some_bytes. split; reflexivity. }
  assert (resolution_revisits (objects cyclic_pdf) (7, 0)) as Hrev.
  { exists (7, 0). split; [apply rtc_refl|]. apply tc_once. reflexivity. }
  split; [exact Hload|]. split; [reflexivity|]. split; [exact Hrev|].
  exact (@cyclic_reference_fails_at_once (env cyclic_pdf) "doc.pdf" world
           cyclic_pdf [] 7 0 [] Hload eq_refl (List.Forall_nil _) Hrev).
Defined.

Lemma ascii_console_lacks_marks : lacks_marks ascii_console.
Proof. intros s. split; discriminate. Qed.

(** No argument: status 1.  A missing file: status 0 on the console
    that encodes every text, status 1 with nothing printed on the
    console that encodes ASCII only. *)
Lemma exit_status_on_console_witness :
  length ["verify_signature.py"] < 2
  ∧ (@Script.run_script ascii_console (env signed_pdf)
       ["verify_signature.py"] world).1 = 1%Z
  ∧ ["verify_signature.py"; "missing.pdf"] !! 1 = Some "missing.pdf"
  ∧ (∀ s, encode_error unicode_console s = None)
  ∧ (@Script.run_script unicode_console (env signed_pdf)
       ["verify_signature.py"; "missing.pdf"] world).1 = 0%Z
  ∧ lacks_marks ascii_console
  ∧ @Script.run_script ascii_console (env signed_pdf)
      ["verify_signature.py"; "missing.pdf"] world = (1%Z, world)
  ∧ @Script.run_script ascii_console (env signed_pdf)
      ["verify_signature.py"; "doc.pdf"] world = (1%Z, world).
Proof.
  assert (length ["verify_signature.py"] < 2) as Hlen by (simpl; lia).
  assert (∀ s, encode_error unicode_console s = None) as Hall
    by (intros s; reflexivity).
  split; [exact Hlen|]. split.
  { exact (proj1 (@exit_status_on_console ascii_console (env signed_pdf)
                    ["verify_signature.py"] world) Hlen). }
  split; [reflexivity|]. split; [exact Hall|]. split.
  { exact (proj1 (proj1 (proj2 (proj2
      (@exit_status_on_console unicode_console (env signed_pdf)
         ["verify_signature.py"; "missing.pdf"] world)))
      "missing.pdf" eq_refl Hall)). }
  split; [exact ascii_console_lacks_marks|]. split.
  - exact (proj2 (proj2 (proj2
      (@exit_status_on_console ascii_console (env signed_pdf)
         ["verify_signature.py"; "missing.pdf"] world)))
      "missing.pdf" eq_refl ascii_console_lacks_marks).
  - exact (proj2 (proj2 (proj2
      (@exit_status_on_console ascii_console (env signed_pdf)
         ["verify_signature.py"; "doc.pdf"] world)))
      "doc.pdf" eq_refl ascii_console_lacks_marks).
Defined.

(** C9 fails as stated: on the console that encodes ASCII only, the
    handler's own [print] raises, and the function lets the exception
    through to its caller, for a missing file and for a signed document
    alike. *)
Lemma handler_print_raises :
  fs world !! "missing.pdf" = None
  ∧ (∃ msg,
       @Script.verify_pdf_signature ascii_console (env signed_pdf)
         "missing.pdf" world
       = (Raise (Exc UnicodeEncodeError msg), world))
  ∧ (∃ msg,
       @Script.verify_pdf_signature ascii_console (env signed_pdf)
         "doc.pdf" world
       = (Raise (Exc UnicodeEncodeError msg), world))
  ∧ ¬ ∃ b w', @Script.verify_pdf_signature ascii_console (env signed_pdf)
                "missing.pdf" world = (Ok b, w').
Proof.
  split; [reflexivity|]. split; [eexists; by vm_compute|].
  split; [eexists; by vm_compute|].
  intros (b & w' & Hrun). vm_compute in Hrun. discriminate Hrun.
Qed.

(** A missing file, a file the parser rejects, and a field without
    [/FT] after a signature field: an error line and [False] each time,
    on the console that encodes every text. *)
Lemma verify_pdf_signature_catches_witness :
  (∀ s, encode_error unicode_console s = None)
  ∧ (∃ b w', @Script.verify_pdf_signature unicode_console (env signed_pdf)
               "missing.pdf" world = (Ok b, w'))
  ∧ (∀ content, fs world !! "missing.pdf" ≠ Some (RegularFile true content))
  ∧ (∃ msg, @verify_pdf_signature (env signed_pdf) "missing.pdf" world
            = (Ok false, emit ["✗ Error reading PDF: " +:+ msg] world))
  ∧ fs empty_file_world !! "doc.pdf" = Some (RegularFile true [])
  ∧ @verify_pdf_signature (env signed_pdf) "doc.pdf" empty_file_world
    = (Ok false,
       emit ["✗ Error reading PDF: Cannot read an empty file"] empty_file_world)
  ∧ @Spec.fields (env untyped_field_pdf) untyped_field_pdf
    = Some ([IndirectObject 3 0] ++ IndirectObject 8 0 :: [])%list
  ∧ untyped_field !! "/FT" = None
  ∧ @verify_pdf_signature (env untyped_field_pdf) "doc.pdf" world
    = (Ok false,
       emit [ "✓ PDF has AcroForm signature structure";
              "✓ Found 2 signature field(s)";
              "
📝 Signature Details:";
              "   - Field Name: A";
              "   - Filter: /Adobe.PPKLite";
              "   - SubFilter: Unknown";
              "   - Reason: Approval";
              "   - Location: N/A";
              "   - Date: N/A";
              "   - Signer: Unknown";
              "✗ Error reading PDF: '/FT'" ] world).
Proof.
  assert (∀ s, encode_error unicode_console s = None) as Hall
    by (intros s; reflexivity).
  assert (∀ content, fs world !! "missing.pdf" ≠ Some (RegularFile true content))
    as Hbad by (intros content; discriminate).
  assert (@Spec.loads (env untyped_field_pdf) "doc.pdf" world untyped_field_pdf)
    as Hload.
  { exists some_bytes. split; reflexivity. }
  split; [exact Hall|]. split.
  { exact (proj1 (proj2
      (@verify_pdf_signature_catches unicode_console (env signed_pdf)
         "missing.pdf" world)) Hall). }
  split; [exact Hbad|]. split.
  { exact (proj1 (proj2 (proj2
      (@verify_pdf_signature_catches unicode_console (env signed_pdf)
         "missing.pdf" world))) Hbad). }
  split; [reflexivity|]. split.
  { exact (proj1 (proj2 (proj2 (proj2
      (@verify_pdf_signature_catches unicode_console (env signed_pdf)
         "doc.pdf" empty_file_world))))
      [] (LibraryError "EmptyFileError") "Cannot read an empty file"
      eq_refl eq_refl). }
  split; [reflexivity|]. split; [reflexivity|].
  exact (proj2 (proj2 (proj2 (proj2
    (@verify_pdf_signature_catches unicode_console (env untyped_field_pdf)
       "doc.pdf" world))))
    untyped_field_pdf [IndirectObject 3 0] (IndirectObject 8 0) untyped_field []
    Hload eq_refl ltac:(repeat constructor) eq_refl eq_refl).
Defined.


